(** * AI resume generator: the text pipeline of [src/app.py]

    A shallow embedding of the pure and the effectful parts of [app.py]:
    the input validators, the prompt builder [create_resume_prompt], the
    generation client [get_iam_token] / [generate_resume], the sanitizer
    [clean_text_for_pdf] and the line classifier of [export_as_pdf].

    Python strings are lists of code points; the calls of [httpx] and of
    [FPDF] are recorded as traces. *)

From Stdlib Require Import ZArith QArith String Ascii List Bool Lia DecimalString.
From stdpp Require Import gmap strings list.
Import ListNotations.

Local Open Scope Z_scope.

(** ** Python strings *)

Module Py.

(** A [str] is a sequence of Unicode code points. *)
Abbreviation pystr := (list Z).

(** An ASCII literal of the source. *)
Definition lit (s : string) : pystr :=
  map (fun a => Z.of_N (N_of_ascii a)) (list_ascii_of_string s).

Definition in_range (lo hi c : Z) : bool := (lo <=? c) && (c <=? hi).

(** The character database of the interpreter.  Below U+0100 the
    properties are written out; beyond, they are the fields of [Ucd]. *)
Class Ucd := {
  uc_isalpha : Z -> bool;
  uc_isdigit : Z -> bool;
  uc_isdecimal : Z -> bool;
  uc_islower : Z -> bool;
  uc_isupper : Z -> bool;
  uc_istitle : Z -> bool;
  uc_upper : Z -> pystr
}.

(** [str.isspace] of one character: the whole table. *)
Definition isspace (c : Z) : bool :=
  in_range 0x09 0x0D c || in_range 0x1C 0x20 c || (c =? 0x85) || (c =? 0xA0)
  || (c =? 0x1680) || in_range 0x2000 0x200A c || in_range 0x2028 0x2029 c
  || (c =? 0x202F) || (c =? 0x205F) || (c =? 0x3000).

Definition latin1_isalpha (c : Z) : bool :=
  in_range 0x41 0x5A c || in_range 0x61 0x7A c || (c =? 0xAA) || (c =? 0xB5)
  || (c =? 0xBA) || in_range 0xC0 0xD6 c || in_range 0xD8 0xF6 c
  || in_range 0xF8 0xFF c.

Definition latin1_isdigit (c : Z) : bool :=
  in_range 0x30 0x39 c || in_range 0xB2 0xB3 c || (c =? 0xB9).

Definition latin1_islower (c : Z) : bool :=
  in_range 0x61 0x7A c || (c =? 0xAA) || (c =? 0xB5) || (c =? 0xBA)
  || in_range 0xDF 0xF6 c || in_range 0xF8 0xFF c.

Definition latin1_isupper (c : Z) : bool :=
  in_range 0x41 0x5A c || in_range 0xC0 0xD6 c || in_range 0xD8 0xDE c.

(** Full upper-casing of one Latin-1 character: the micro sign and y
    with diaeresis leave Latin-1, sharp s becomes two letters. *)
Definition latin1_upper (c : Z) : pystr :=
  if in_range 0x61 0x7A c then [c - 32]
  else if c =? 0xB5 then [0x39C]
  else if c =? 0xDF then [0x53; 0x53]
  else if c =? 0xFF then [0x178]
  else if in_range 0xE0 0xFE c && negb (c =? 0xF7) then [c - 32]
  else [c].

Section Database.
Context {U : Ucd}.

Definition isalpha (c : Z) : bool :=
  if c <? 256 then latin1_isalpha c else uc_isalpha c.
Definition isdigit (c : Z) : bool :=
  if c <? 256 then latin1_isdigit c else uc_isdigit c.
Definition isdecimal (c : Z) : bool :=
  if c <? 256 then in_range 0x30 0x39 c else uc_isdecimal c.
Definition islower (c : Z) : bool :=
  if c <? 256 then latin1_islower c else uc_islower c.
Definition isupper_char (c : Z) : bool :=
  if c <? 256 then latin1_isupper c else uc_isupper c.
Definition istitle_char (c : Z) : bool :=
  if c <? 256 then false else uc_istitle c.
Definition upper_char (c : Z) : pystr :=
  if c <? 256 then latin1_upper c else uc_upper c.

(** [s.upper()] *)
Definition upper (s : pystr) : pystr := flat_map upper_char s.

(** [s.isupper()]: no lower-case or title-case character, and at least
    one upper-case one. *)
Fixpoint isupper_from (cased : bool) (s : pystr) : bool :=
  match s with
  | [] => cased
  | c :: s' =>
      if islower c || istitle_char c then false
      else isupper_from (cased || isupper_char c) s'
  end.
Definition isupper (s : pystr) : bool := isupper_from false s.
End Database.

(** [s.strip()] *)
Fixpoint lstrip (s : pystr) : pystr :=
  match s with
  | c :: s' => if isspace c then lstrip s' else s
  | [] => []
  end.
Definition rstrip (s : pystr) : pystr := rev (lstrip (rev s)).
Definition strip (s : pystr) : pystr := rstrip (lstrip s).

(** [s.startswith(p)] *)
Fixpoint startswith (s p : pystr) : bool :=
  match p, s with
  | [], _ => true
  | _ :: _, [] => false
  | a :: p', b :: s' => (a =? b) && startswith s' p'
  end.

(** [sub in s] *)
Fixpoint str_in (sub s : pystr) : bool :=
  startswith s sub ||
  match s with
  | [] => false
  | _ :: s' => str_in sub s'
  end.

(** [sub] occurs in [s] verbatim. *)
Definition substring (sub s : pystr) : Prop :=
  exists pre post, s = pre ++ sub ++ post.

(** [s.replace(old, new)] for a one-character [old]. *)
Definition replace1 (old : Z) (new s : pystr) : pystr :=
  flat_map (fun c => if c =? old then new else [c]) s.

(** [s.split(sep)] for a one-character [sep]. *)
Fixpoint split1 (sep : Z) (s : pystr) : list pystr :=
  match s with
  | [] => [[]]
  | c :: s' =>
      if c =? sep then [] :: split1 sep s'
      else match split1 sep s' with
           | [] => [[c]]
           | w :: ws => (c :: w) :: ws
           end
  end.

(** [sep.join(parts)] *)
Fixpoint join (sep : pystr) (parts : list pystr) : pystr :=
  match parts with
  | [] => []
  | [p] => p
  | p :: ps => p ++ sep ++ join sep ps
  end.

(** [str(n)] of an [int]. *)
Definition str_of_int (n : Z) : pystr :=
  lit (NilZero.string_of_int (Z.to_int n)).

End Py.
Import Py.

(** ** Regular expressions of [re]

    The patterns of the validators use character classes, concatenation,
    optional groups and counted repetitions.  [re.match] backtracks over
    every alternative, so [re.match(p, s) is not None] is membership in the
    language of [p]; membership is decided with derivatives. *)

Module Re.

Inductive regex :=
  | Void
  | Eps
  | Cls (p : Z -> bool)
  | Cat (r1 r2 : regex)
  | Alt (r1 r2 : regex)
  | Star (r : regex).

(** A literal character, a literal word, [r?], [r+], [r{n}], [r{lo,hi}]
    and [r{n,}]. *)
Definition Chr (c : Z) : regex := Cls (Z.eqb c).
Definition Lit (s : string) : regex :=
  fold_right (fun c r => Cat (Chr c) r) Eps (lit s).
Definition Opt (r : regex) : regex := Alt r Eps.
Definition Plus (r : regex) : regex := Cat r (Star r).
Fixpoint Pow (n : nat) (r : regex) : regex :=
  match n with
  | O => Eps
  | S n' => Cat r (Pow n' r)
  end.
Fixpoint UpTo (n : nat) (r : regex) : regex :=
  match n with
  | O => Eps
  | S n' => Opt (Cat r (UpTo n' r))
  end.
Definition Rep (lo hi : nat) (r : regex) : regex :=
  Cat (Pow lo r) (UpTo (hi - lo) r).
Definition AtLeast (n : nat) (r : regex) : regex := Cat (Pow n r) (Star r).

Fixpoint nullable (r : regex) : bool :=
  match r with
  | Void => false
  | Eps => true
  | Cls _ => false
  | Cat r1 r2 => nullable r1 && nullable r2
  | Alt r1 r2 => nullable r1 || nullable r2
  | Star _ => true
  end.

Fixpoint deriv (c : Z) (r : regex) : regex :=
  match r with
  | Void => Void
  | Eps => Void
  | Cls p => if p c then Eps else Void
  | Cat r1 r2 =>
      if nullable r1 then Alt (Cat (deriv c r1) r2) (deriv c r2)
      else Cat (deriv c r1) r2
  | Alt r1 r2 => Alt (deriv c r1) (deriv c r2)
  | Star r1 => Cat (deriv c r1) (Star r1)
  end.

Fixpoint accepts (r : regex) (s : pystr) : bool :=
  match s with
  | [] => nullable r
  | c :: s' => accepts (deriv c r) s'
  end.

(** The words of a pattern, for the correctness of [accepts]. *)
Inductive lang : regex -> pystr -> Prop :=
  | lang_eps : lang Eps []
  | lang_cls p c : p c = true -> lang (Cls p) [c]
  | lang_cat r1 r2 s1 s2 : lang r1 s1 -> lang r2 s2 -> lang (Cat r1 r2) (s1 ++ s2)
  | lang_alt_l r1 r2 s : lang r1 s -> lang (Alt r1 r2) s
  | lang_alt_r r1 r2 s : lang r2 s -> lang (Alt r1 r2) s
  | lang_star_nil r : lang (Star r) []
  | lang_star_cons r s1 s2 :
      lang r s1 -> lang (Star r) s2 -> lang (Star r) (s1 ++ s2).

(** [re.match('^' + r + '$', s) is not None]: without [re.MULTILINE] the
    dollar matches at the end of the string and also just before a
    newline that ends the string. *)
Definition match_anchored (r : regex) (s : pystr) : bool :=
  accepts r s ||
  match rev s with
  | c :: t => (c =? 10) && accepts r (rev t)
  | [] => false
  end.

End Re.
Import Re.

(** ** Exceptions, the network and the PDF object *)

Inductive exn :=
  | ResumeGeneratorError (msg : pystr)
  | KeyError (key : string)
  | TimeoutException (msg : pystr)
  | ConnectError (msg : pystr)
  | OtherException (msg : pystr).

(** [str(e)] *)
Definition str_of_exn (e : exn) : pystr :=
  match e with
  | ResumeGeneratorError m => m
  | KeyError k => lit "'" ++ lit k ++ lit "'"
  | TimeoutException m => m
  | ConnectError m => m
  | OtherException m => m
  end.

(** A computation that returns or raises. *)
Definition result (A : Type) : Type := exn + A.

#[export] Instance result_ret : MRet result := fun _ a => inr a.
#[export] Instance result_bind : MBind result := fun _ _ k m =>
  match m with
  | inl e => inl e
  | inr a => k a
  end.

(** [user_data[key]] *)
Definition getitem (user_data : gmap string pystr) (key : string) : result pystr :=
  match user_data !! key with
  | Some v => inr v
  | None => inl (KeyError key)
  end.

(** [user_data.get(key, default)] *)
Definition get_default (user_data : gmap string pystr) (key : string) (dflt : pystr) : pystr :=
  default dflt (user_data !! key).

(** The response of [httpx.post]: [resp.json()] may itself raise. *)
Record response (J : Type) := Response {
  status_code : Z;
  text : pystr;
  json : result J
}.
Arguments Response {J}.
Arguments status_code {J}.
Arguments text {J}.
Arguments json {J}.

(** The body of the token endpoint is read at ["access_token"] only; the
    body of the generation endpoint at ["results"], and its first entry at
    ["generated_text"]. *)
Abbreviation iam_json := (option pystr).
Abbreviation generation_json := (option (list (option pystr))).

(** The two requests of the client, as sent. *)
Inductive call :=
  | IamPost (apikey : pystr)
  | GenerationPost (url token model_id input project_id : pystr).

(** The remote services: what each request is answered with, or the
    exception the transport raises. *)
Record network := Network {
  iam_service : pystr -> result (response iam_json);
  generation_service : pystr -> pystr -> pystr -> pystr -> pystr ->
                       result (response generation_json)
}.

(** A computation of the client: it returns or raises, and extends the
    list of requests sent so far. *)
Definition client (A : Type) : Type := list call -> result A * list call.

#[export] Instance client_ret : MRet client := fun _ a sent => (inr a, sent).
#[export] Instance client_bind : MBind client := fun _ _ k m sent =>
  match m sent with
  | (inl e, sent') => (inl e, sent')
  | (inr a, sent') => k a sent'
  end.

Definition raise {A} (e : exn) : client A := fun sent => (inl e, sent).
Definition lift {A} (r : result A) : client A := fun sent => (r, sent).

(** The font style of [set_font('Arial', '', size)]. *)
Definition regular : string := EmptyString.

(** The calls on the [FPDF] object.  [line_across] is the rule
    [line(l_margin, get_y(), w - r_margin, get_y())]. *)
Inductive pdf_op :=
  | ln (h : Z)
  | set_font (family style : string) (size : Z)
  | cell (w h : Z) (txt : pystr) (border ln : Z) (align : string)
  | multi_cell (w h : Z) (txt : pystr) (border : Z) (align : string)
  | set_line_width (width : Q)
  | line_across.

(** ** The application *)

Section App.
Context {U : Ucd}.

(** *** Input validation (lines 127-146) *)

Definition az c := in_range 0x61 0x7A c.
Definition AZ c := in_range 0x41 0x5A c.
Definition d09 c := in_range 0x30 0x39 c.
Definition one_of (s : string) (c : Z) : bool := existsb (Z.eqb c) (lit s).

(** [[a-zA-Z0-9._%+-]+@[a-zA-Z0-9.-]+\.[a-zA-Z]{2,}] *)
Definition email_pattern : regex :=
  Cat (Plus (Cls (fun c => az c || AZ c || d09 c || one_of "._%+-" c)))
 (Cat (Chr 0x40)
 (Cat (Plus (Cls (fun c => az c || AZ c || d09 c || one_of ".-" c)))
 (Cat (Chr 0x2E)
      (AtLeast 2 (Cls (fun c => az c || AZ c)))))).

Definition validate_email (email : pystr) : bool :=
  match_anchored email_pattern email.

(** [[\+]?[1-9][\d\s\-\(\)]{7,15}]: in a [str] pattern [\d] is any
    decimal digit and [\s] any white space of the database. *)
Definition phone_pattern : regex :=
  Cat (Opt (Cls (one_of "+")))
 (Cat (Cls (in_range 0x31 0x39))
      (Rep 7 15 (Cls (fun c => isdecimal c || isspace c || one_of "-()" c)))).

Definition validate_phone (phone : pystr) : bool :=
  match_anchored phone_pattern
    (replace1 0x29 [] (replace1 0x28 [] (replace1 0x2D [] (replace1 0x20 [] phone)))).

(** [(https?://)?(www\.)?linkedin\.com/in/[a-zA-Z0-9-]+/?] *)
Definition linkedin_pattern : regex :=
  Cat (Opt (Cat (Lit "http") (Cat (Opt (Chr 0x73)) (Lit "://"))))
 (Cat (Opt (Lit "www."))
 (Cat (Lit "linkedin.com/in/")
 (Cat (Plus (Cls (fun c => az c || AZ c || d09 c || one_of "-" c)))
      (Opt (Chr 0x2F))))).

Definition validate_linkedin (linkedin : pystr) : bool :=
  match linkedin with
  | [] => true
  | _ => match_anchored linkedin_pattern linkedin
  end.

(** [(https?://)?(www\.)?github\.com/[a-zA-Z0-9-]+/?] *)
Definition github_pattern : regex :=
  Cat (Opt (Cat (Lit "http") (Cat (Opt (Chr 0x73)) (Lit "://"))))
 (Cat (Opt (Lit "www."))
 (Cat (Lit "github.com/")
 (Cat (Plus (Cls (fun c => az c || AZ c || d09 c || one_of "-" c)))
      (Opt (Chr 0x2F))))).

Definition validate_github (github : pystr) : bool :=
  match github with
  | [] => true
  | _ => match_anchored github_pattern github
  end.

(** *** The sanitizer (lines 469-527) *)

(** The dictionary literal, in source order; three keys occur twice. *)
Definition replacements_literal : list (Z * pystr) :=
  [ (0x2022, lit "* "); (0x2013, lit "-"); (0x2014, lit "-");
    (0x2019, lit "'"); (0x201C, [34]); (0x201D, [34]);
    (0x2026, lit "..."); (0x00A0, lit " "); (0x2212, lit "-");
    (0x00B7, lit "* "); (0x25CF, lit "* "); (0x25CB, lit "* ");
    (0x25A0, lit "* "); (0x25A1, lit "* "); (0x2192, lit "->");
    (0x2190, lit "<-"); (0x00AE, lit "(R)"); (0x00A9, lit "(C)");
    (0x2122, lit "(TM)"); (0x2500, lit "-"); (0x2502, lit "|");
    (0x2022, lit "* "); (0x2605, lit "*"); (0x2606, lit "*");
    (0x25CF, lit "* "); (0x25CB, lit "* ") ].

(** Building a [dict]: a repeated key keeps its first position and takes
    the last value. *)
Fixpoint dict_set (k : Z) (v : pystr) (d : list (Z * pystr)) : list (Z * pystr) :=
  match d with
  | [] => [(k, v)]
  | (k', v') :: d' => if k' =? k then (k', v) :: d' else (k', v') :: dict_set k v d'
  end.

Definition replacements : list (Z * pystr) :=
  fold_left (fun d kv => dict_set (fst kv) (snd kv) d) replacements_literal [].

(** [for unicode_char, replacement in replacements.items(): text = ...] *)
Definition apply_replacements (items : list (Z * pystr)) (text : pystr) : pystr :=
  fold_left (fun t kv => replace1 (fst kv) (snd kv) t) items text.

(** One iteration of [for char in text]: what is appended to [safe_text]. *)
Definition fallback_char (c : Z) : pystr :=
  if c <? 128 then [c]
  else if isalpha c then (if c <? 256 then [c] else lit "?")
  else if isdigit c then (if c <? 256 then [c] else lit "?")
  else if isspace c then lit " "
  else if c <? 256 then [c]
  else [].

Definition fallback_pass (text : pystr) : pystr := flat_map fallback_char text.

Definition clean_text_for_pdf (text : pystr) : pystr :=
  fallback_pass (apply_replacements replacements text).

(** Whether a character is a key of the table, and what one character of
    the input becomes: the sanitizer works character by character
    ([clean_text_for_pdf_flat]). *)
Definition is_key (c : Z) : bool := existsb (fun kv => fst kv =? c) replacements.

Definition clean_char (c : Z) : pystr :=
  fallback_pass (apply_replacements replacements [c]).

(** *** The prompt builder (lines 264-336) *)

Definition professional_opening : pystr := lit "Create a professional, ATS-friendly resume with clean formatting. Use the following information:

".

Definition professional_requirements : pystr := lit "

Format requirements:
- Use ALL CAPS for section headers
- Use simple dashes (-) for bullet points
- Keep formatting clean and scannable
- Include sections: CONTACT INFO, EDUCATION, TECHNICAL SKILLS, EXPERIENCE, CERTIFICATIONS
- Make it concise but comprehensive
- Use action verbs and quantify achievements where possible

Generate a complete, professional resume.".

Definition technical_opening : pystr := lit "Create a technical resume optimized for software engineering roles. Use the following information:

".

Definition technical_requirements : pystr := lit "

Format requirements:
- Emphasize technical skills and projects
- Use ALL CAPS for section headers
- Include sections: CONTACT INFO, TECHNICAL SKILLS, EXPERIENCE, EDUCATION, CERTIFICATIONS
- Highlight programming languages, frameworks, and tools
- Focus on technical achievements and impact
- Use metrics and numbers where possible

Generate a complete, technical resume.".

Definition creative_opening : pystr := lit "Create a creative but professional resume with engaging language. Use the following information:

".

Definition creative_requirements : pystr := lit "

Format requirements:
- Use dynamic action words
- Show personality while maintaining professionalism
- Use ALL CAPS for section headers
- Include sections: CONTACT INFO, SUMMARY, EXPERIENCE, SKILLS, EDUCATION, CERTIFICATIONS
- Include a brief professional summary
- Highlight unique achievements and value propositions

Generate a complete, creative resume.".

Definition academic_opening : pystr := lit "Create an academic-style resume with detailed education focus. Use the following information:

".

Definition academic_requirements : pystr := lit "

Format requirements:
- Emphasize education, research, and academic achievements
- Use ALL CAPS for section headers
- Include sections: CONTACT INFO, EDUCATION, RESEARCH EXPERIENCE, SKILLS, CERTIFICATIONS
- Include GPA if mentioned in education
- Focus on academic contributions and scholarly work

Generate a complete, academic resume.".

(** The f-string [base_info] (lines 267-277). *)
Definition base_info (user_data : gmap string pystr) : result pystr :=
  name ← getitem user_data "name";
  role ← getitem user_data "role";
  phone ← getitem user_data "phone";
  email ← getitem user_data "email";
  skills ← getitem user_data "skills";
  experience ← getitem user_data "experience";
  education ← getitem user_data "education";
  mret (lit "
Name: " ++ name ++ lit "
Role: " ++ role ++ lit "
Phone: " ++ phone ++ lit "
Email: " ++ email ++ lit "
Location: " ++ get_default user_data "location" (lit "Not specified") ++ lit "
Skills: " ++ skills ++ lit "
Experience: " ++ experience ++ lit "
Education: " ++ education ++ lit "
Certifications: " ++ get_default user_data "certifications" (lit "None listed") ++ lit "
").

Definition create_resume_prompt (user_data : gmap string pystr)
    (template_style : pystr) : result pystr :=
  info ← base_info user_data;
  if decide (template_style = lit "professional") then
    mret (professional_opening ++ info ++ professional_requirements)
  else if decide (template_style = lit "technical") then
    mret (technical_opening ++ info ++ technical_requirements)
  else if decide (template_style = lit "creative") then
    mret (creative_opening ++ info ++ creative_requirements)
  else
    mret (academic_opening ++ info ++ academic_requirements).

(** *** The generation client (lines 152-262) *)

Definition cross : pystr := [0x274C].
Definition alarm_clock : pystr := [0x23F0].
Definition globe : pystr := [0x1F310].

Section Client.
Variable net : network.
(** [st.secrets["ibm"]]; [main] stops before the form when a key is
    missing (lines 546-552). *)
Variables api_key project_id : pystr.

Definition WATSONX_URL : pystr := lit "https://us-south.ml.cloud.ibm.com".
Definition API_VERSION : pystr := lit "2023-05-29".

Definition safe_api_call {A} (func : client A) : client A := fun sent =>
  match func sent with
  | (inr a, sent') => (inr a, sent')
  | (inl (TimeoutException _), sent') =>
      (inl (ResumeGeneratorError
              (alarm_clock ++ lit " Request timed out. Please try again.")), sent')
  | (inl (ConnectError _), sent') =>
      (inl (ResumeGeneratorError
              (globe ++ lit " Connection error. Please check your internet connection.")),
       sent')
  | (inl e, sent') =>
      (inl (ResumeGeneratorError
              (cross ++ lit " Unexpected error: " ++ str_of_exn e)), sent')
  end.

Definition post_iam (apikey : pystr) : client (response iam_json) := fun sent =>
  (iam_service net apikey, sent ++ [IamPost apikey]).

Definition post_generation (url token model_id input project : pystr)
    : client (response generation_json) := fun sent =>
  (generation_service net url token model_id input project,
   sent ++ [GenerationPost url token model_id input project]).

Definition _get_token (apikey : pystr) : client pystr :=
  resp ← post_iam apikey;
  if negb (status_code resp =? 200) then
    if status_code resp =? 400 then
      raise (ResumeGeneratorError (cross ++ lit " Invalid API key format"))
    else if status_code resp =? 401 then
      raise (ResumeGeneratorError (cross ++ lit " API key authentication failed"))
    else if status_code resp =? 403 then
      raise (ResumeGeneratorError (cross ++ lit " API key access denied"))
    else
      raise (ResumeGeneratorError
               (cross ++ lit " IAM token error [" ++ str_of_int (status_code resp)
                ++ lit "]: " ++ text resp))
  else
    body ← lift (json resp);
    match body with
    | Some token => mret token
    | None => raise (KeyError "access_token")
    end.

Definition get_iam_token (apikey : pystr) : client pystr :=
  safe_api_call (_get_token apikey).

Definition required_fields : list string :=
  ["name"; "role"; "skills"; "experience"; "education"; "phone"; "email"]%string.

Definition missing_fields (user_data : gmap string pystr) : list string :=
  filter (fun field => strip (get_default user_data field []) = []) required_fields.

Definition _generate (token model_id prompt : pystr) : client pystr :=
  resp ← post_generation
            (WATSONX_URL ++ lit "/ml/v1/text/generation?version=" ++ API_VERSION)
            token model_id prompt project_id;
  if status_code resp =? 404 then
    raise (ResumeGeneratorError (cross ++ lit " Model not available. Try a different model."))
  else if status_code resp =? 403 then
    raise (ResumeGeneratorError (cross ++ lit " Access denied. Check your project setup."))
  else if status_code resp =? 429 then
    raise (ResumeGeneratorError
             (cross ++ lit " Rate limit exceeded. Please wait a moment and try again."))
  else if negb (status_code resp =? 200) then
    raise (ResumeGeneratorError
             (cross ++ lit " API error [" ++ str_of_int (status_code resp)
              ++ lit "]: " ++ text resp))
  else
    data ← lift (json resp);
    match data with
    | None | Some [] =>
        raise (ResumeGeneratorError (cross ++ lit " No response from model"))
    | Some (first :: _) =>
        let generated_text := strip (default [] first) in
        match generated_text with
        | [] => raise (ResumeGeneratorError (cross ++ lit " Empty response. Try again."))
        | _ => mret generated_text
        end
    end.

Definition generate_resume (user_data : gmap string pystr)
    (model_id template_style : pystr) : client pystr :=
  match missing_fields user_data with
  | _ :: _ =>
      raise (ResumeGeneratorError
               (cross ++ lit " Missing required fields: "
                ++ join (lit ", ") (map lit (missing_fields user_data))))
  | [] =>
      email ← lift (getitem user_data "email");
      if negb (validate_email email) then
        raise (ResumeGeneratorError (cross ++ lit " Invalid email format"))
      else
        phone ← lift (getitem user_data "phone");
        if negb (validate_phone phone) then
          raise (ResumeGeneratorError (cross ++ lit " Invalid phone number format"))
        else
          prompt ← lift (create_resume_prompt user_data template_style);
          token ← get_iam_token api_key;
          safe_api_call (_generate token model_id prompt)
  end.

End Client.

(** *** The renderer (lines 339-452) *)

Definition len (s : pystr) : Z := Z.of_nat (length s).

(** [[user_data[key]]] when [user_data.get(key)] is truthy, else nothing. *)
Definition present (user_data : gmap string pystr) (key : string) : list pystr :=
  match user_data !! key with
  | Some (c :: v) => [c :: v]
  | _ => []
  end.

(** [EnhancedPDF.header], the callback of every new page. *)
Definition header (user_data : gmap string pystr) : result (list pdf_op) :=
  name ← getitem user_data "name";
  let clean_name := clean_text_for_pdf (upper name) in
  let contact_parts :=
    map clean_text_for_pdf
      (present user_data "phone" ++ present user_data "email"
       ++ present user_data "location") in
  let social_parts :=
    map (fun v => lit "LinkedIn: " ++ clean_text_for_pdf v) (present user_data "linkedin")
    ++ map (fun v => lit "GitHub: " ++ clean_text_for_pdf v) (present user_data "github") in
  mret ([set_font "Arial" "B" 20; cell 0 15 clean_name 0 1 "C";
         set_font "Arial" regular 11;
         cell 0 8 (join (lit " | ") contact_parts) 0 1 "C"]
        ++ match social_parts with
           | [] => []
           | _ => [set_font "Arial" regular 10;
                   cell 0 6 (join (lit " | ") social_parts) 0 1 "C"]
           end
        ++ [ln 10]).

Definition section_header (title : pystr) : list pdf_op :=
  [ln 5; set_font "Arial" "B" 13; cell 0 8 (clean_text_for_pdf title) 0 1 "L";
   set_line_width 0.5; line_across; ln 5].

Definition safe_cell (w h : Z) (txt : pystr) (border ln_ : Z) (align : string)
    : list pdf_op :=
  [cell w h (clean_text_for_pdf txt) border ln_ align].

Definition safe_multi_cell (w h : Z) (txt : pystr) : list pdf_op :=
  [multi_cell w h (clean_text_for_pdf txt) 0 "L"].

(** The variables of the loop over the lines, and what was drawn. *)
Record loop_state := LoopState {
  skip_header : bool;
  current_section : option pystr;
  drawn : list pdf_op
}.

Definition draw (ops : list pdf_op) (st : loop_state) : loop_state :=
  LoopState (skip_header st) (current_section st) (drawn st ++ ops).

(** The test of line 428, repeated in line 437. *)
Definition looks_like_header (line : pystr) : bool :=
  isupper line && (len line <? 50).

Definition is_bullet (line : pystr) : bool :=
  startswith line (lit "- ") || startswith line (lit "* ") || startswith line (lit "+ ").

(** Lines 436-452: "format based on content". *)
Definition format_line (font_size : Z) (line : pystr) (st : loop_state) : loop_state :=
  if looks_like_header line && negb (startswith line (lit "-"))
     && negb (startswith line (lit "*")) then
    LoopState (skip_header st) (Some line) (drawn st ++ section_header line)
  else if is_bullet line then
    let content := if len line >? 2 then strip (drop 2 line) else line in
    draw ([set_font "Arial" regular font_size] ++ safe_cell 8 6 (lit "* ") 0 0 "L"
          ++ safe_multi_cell 0 6 content ++ [ln 1]) st
  else
    draw ([set_font "Arial" regular font_size] ++ safe_multi_cell 0 6 line ++ [ln 1]) st.

(** One iteration of [for line in lines] (lines 414-452). *)
Definition process_line (user_data : gmap string pystr) (font_size : Z)
    (st : loop_state) (raw : pystr) : result loop_state :=
  let line := strip raw in
  match line with
  | [] => mret (draw [ln 3] st)
  | _ =>
      if skip_header st then
        name ← getitem user_data "name";
        let clean_name := clean_text_for_pdf (upper name) in
        phone ← getitem user_data "phone";
        let clean_phone := clean_text_for_pdf phone in
        email ← getitem user_data "email";
        let clean_email := clean_text_for_pdf email in
        if existsb (fun info => str_in info line) [clean_name; clean_phone; clean_email]
        then mret st
        else if looks_like_header line then
          mret (format_line font_size line
                  (LoopState false (current_section st) (drawn st)))
        else mret st
      else mret (format_line font_size line st)
  end.

Fixpoint process_lines (user_data : gmap string pystr) (font_size : Z)
    (lines : list pystr) (st : loop_state) : result loop_state :=
  match lines with
  | [] => mret st
  | raw :: rest =>
      st' ← process_line user_data font_size st raw;
      process_lines user_data font_size rest st'
  end.

(** [export_as_pdf] up to the end of the loop: the calls it makes on the
    page after [add_page] and [set_margins], in order. *)
Definition export_as_pdf (text : pystr) (user_data : gmap string pystr)
    (font_size : Z) : result (list pdf_op) :=
  let text := clean_text_for_pdf text in
  let lines := split1 10 text in
  st ← process_lines user_data font_size lines (LoopState true None []);
  mret (drawn st).

End App.

(** ** Lengths of the words of a pattern *)

Fixpoint min_len (r : regex) : nat :=
  match r with
  | Void | Eps | Star _ => 0
  | Cls _ => 1
  | Cat r1 r2 => min_len r1 + min_len r2
  | Alt r1 r2 => Nat.min (min_len r1) (min_len r2)
  end.

Fixpoint max_len (r : regex) : option nat :=
  match r with
  | Void | Eps => Some 0%nat
  | Cls _ => Some 1%nat
  | Cat r1 r2 =>
      match max_len r1, max_len r2 with
      | Some m1, Some m2 => Some (m1 + m2)%nat
      | _, _ => None
      end
  | Alt r1 r2 =>
      match max_len r1, max_len r2 with
      | Some m1, Some m2 => Some (Nat.max m1 m2)
      | _, _ => None
      end
  | Star _ => None
  end.

(** What [validate_phone] hands to the pattern (line 134). *)
Definition without_separators (phone : pystr) : pystr :=
  replace1 0x29 [] (replace1 0x28 [] (replace1 0x2D [] (replace1 0x20 [] phone))).

(** ** The rest of [app.py] *)

(** [str.isnumeric] beyond Latin-1, which [str.isalnum] also consults. *)
Class UcdNumeric := { uc_isnumeric : Z -> bool }.

Definition latin1_isnumeric (c : Z) : bool :=
  latin1_isdigit c || in_range 0xBC 0xBE c.

(** [get_config] (lines 102-124): the three catalogs, in source order. *)
Definition AVAILABLE_MODELS : list (string * string) :=
  [("Mistral Large", "mistralai/mistral-large");
   ("Meta Llama 3 405B Instruct", "meta-llama/llama-3-405b-instruct");
   ("IBM Granite 13B Instruct", "ibm/granite-13b-instruct-v2");
   ("IBM Granite 20B Instruct", "ibm/granite-20b-instruct-v1")]%string.

Definition AVAILABLE_FONTS : list (string * string) :=
  [("Arial", "Arial"); ("Times New Roman", "Times"); ("Helvetica", "Helvetica");
   ("Calibri", "Arial")]%string.

Definition RESUME_TEMPLATES : list (string * string) :=
  [("Professional", "professional"); ("Creative", "creative");
   ("Technical", "technical"); ("Academic", "academic")]%string.

(** The dictionary [main] builds from the form (lines 702-714). *)
Definition form_user_data
    (name role phone email location linkedin github skills experience education
     certifications : pystr) : gmap string pystr :=
  list_to_map
    [("name", name); ("role", role); ("phone", phone); ("email", email);
     ("location", location); ("linkedin", linkedin); ("github", github);
     ("skills", skills); ("experience", experience); ("education", education);
     ("certifications", certifications)]%string.

(** The keys the f-string [base_info] indexes, in the order it does. *)
Definition base_info_keys : list string :=
  ["name"; "role"; "phone"; "email"; "skills"; "experience"; "education"]%string.

Section Rest.
Context {U : Ucd} {N : UcdNumeric}.

(** [c.isalnum()] *)
Definition isalnum (c : Z) : bool :=
  isalpha c || isdecimal c || isdigit c
  || (if c <? 256 then latin1_isnumeric c else uc_isnumeric c).

(** Lines 455-456: the part of the file name that comes from the profile. *)
Definition safe_name (name : pystr) : pystr :=
  List.filter (fun c => isalnum c || one_of "-_" c)
    (replace1 0x20 (lit "_") (clean_text_for_pdf name)).

(** Line 458, with [timestamp] the value of line 457. *)
Definition filename_for (user_data : gmap string pystr) (timestamp : pystr)
    : result pystr :=
  name ← getitem user_data "name";
  mret (lit "resume_" ++ safe_name name ++ lit "_" ++ timestamp ++ lit ".pdf").

(** Lines 460-467.  [output name] is [None] when [pdf.output(name)] writes
    the file and the exception it raises otherwise. *)
Definition save_pdf (output : pystr -> option exn) (filename timestamp : pystr)
    : result pystr :=
  match output filename with
  | None => inr filename
  | Some _ =>
      let simple_filename := lit "resume_" ++ timestamp ++ lit ".pdf" in
      match output simple_filename with
      | None => inr simple_filename
      | Some e => inl e
      end
  end.

(** [export_as_pdf] as a whole: what [header] draws when [add_page] opens
    the first page, what the loop draws, and the name of the file written.
    [font_family] is a parameter of the source that its body never uses. *)
Definition export_as_pdf_file (output : pystr -> option exn) (timestamp : pystr)
    (text : pystr) (user_data : gmap string pystr) (font_family : pystr)
    (font_size : Z) : result (list pdf_op * list pdf_op * pystr) :=
  first_page ← header user_data;
  body ← export_as_pdf text user_data font_size;
  filename ← filename_for user_data timestamp;
  written ← save_pdf output filename timestamp;
  mret (first_page, body, written).

End Rest.

(** The text an operation hands to the PDF object, and the font family it
    selects. *)
Definition op_text (op : pdf_op) : pystr :=
  match op with
  | cell _ _ txt _ _ _ => txt
  | multi_cell _ _ txt _ _ => txt
  | _ => []
  end.

Definition op_family (op : pdf_op) : list string :=
  match op with
  | set_font family _ _ => [family]
  | _ => []
  end.

(** ** [genai_resume_app.py] *)

Module Genai.

(** The f-string of [generate_resume] (lines 9-16). *)
Definition prompt (name role skills experience : pystr) : pystr :=
  lit "
    Create a professional resume summary for:
    Name: " ++ name ++ lit "
    Role: " ++ role ++ lit "
    Skills: " ++ skills ++ lit "
    Experience: " ++ experience ++ lit "
    Format it in a structured resume style.
    ".

(** [generate_resume]: [chat] answers the user message with the content of
    the first choice, or raises. *)
Definition generate_resume (chat : pystr -> result pystr)
    (name role skills experience : pystr) : result pystr :=
  content ← chat (prompt name role skills experience);
  mret (strip content).

Inductive op :=
  | add_page
  | set_auto_page_break (auto : bool) (margin : Z)
  | set_font (family : string) (size : Z)
  | multi_cell (w h : Z) (txt : pystr)
  | output (filename : string).

(** [export_as_pdf] (lines 27-36). *)
Definition export_as_pdf (resume_text : pystr) (filename : string) : list op :=
  [add_page; set_auto_page_break true 15; set_font "Arial" 12]
  ++ map (multi_cell 0 10) (split1 10 resume_text)
  ++ [output filename].

Definition cell_texts (ops : list op) : list pystr :=
  flat_map (fun o => match o with multi_cell _ _ txt => [txt] | _ => [] end) ops.

End Genai.

(** ** Sample data *)

(** A database that knows, beyond Latin-1, the basic Greek alphabet, the
    CJK unified ideographs, the Arabic-Indic digits and the four
    title-case digraphs of Latin Extended-B. *)
#[export] Instance ucd_excerpt : Ucd := {|
  uc_isalpha c := in_range 0x391 0x3A1 c || in_range 0x3A3 0x3A9 c
                  || in_range 0x3B1 0x3C9 c || in_range 0x4E00 0x9FFF c;
  uc_isdigit c := in_range 0x660 0x669 c;
  uc_isdecimal c := in_range 0x660 0x669 c;
  uc_islower c := in_range 0x3B1 0x3C9 c;
  uc_isupper c := in_range 0x391 0x3A1 c || in_range 0x3A3 0x3A9 c;
  uc_istitle c := (c =? 0x1C5) || (c =? 0x1C8) || (c =? 0x1CB) || (c =? 0x1F2);
  uc_upper c := if c =? 0x3C2 then [0x3A3]
                else if in_range 0x3B1 0x3C9 c then [c - 32] else [c]
|}.

(** The profile of the end-to-end scenario. *)
Definition jane : gmap string pystr :=
  list_to_map
    [("name", lit "Jane Doe"); ("role", lit "Engineer"); ("phone", lit "555-0100");
     ("email", lit "jane@ex.com"); ("skills", lit "Go"); ("experience", lit "X");
     ("education", lit "Y")]%string.

(** The same profile with its two social links filled in. *)
Definition jane_social : gmap string pystr :=
  <["linkedin" := lit "https://linkedin.com/in/jdoe"]>
    (<["github" := lit "https://github.com/jdoe"]> jane).

(** A profile that passes validation (the placeholders of the form). *)
Definition john : gmap string pystr :=
  list_to_map
    [("name", lit "John Doe"); ("role", lit "Software Engineer");
     ("phone", lit "+1 (555) 123-4567"); ("email", lit "john@example.com");
     ("location", lit "City, State"); ("linkedin", []); ("github", []);
     ("skills", lit "Python, SQL"); ("experience", lit "Software Developer at ABC Corp");
     ("education", lit "Bachelor of Science in Computer Science");
     ("certifications", [])]%string.

(** Services that answer every request the same way. *)
Definition constant_network (iam : result (response iam_json))
    (generation : result (response generation_json)) : network :=
  Network (fun _ => iam) (fun _ _ _ _ _ => generation).

(** What the loop draws for the lines it skips: the spacing of the blank
    ones. *)
Definition blank_spacing (lines : list pystr) : list pdf_op :=
  flat_map (fun raw => match strip raw with [] => [ln 3] | _ => [] end) lines.

(** The prompt of a profile, for the examples. *)
Definition prompt_of (user_data : gmap string pystr) (style : pystr) : pystr :=
  match create_resume_prompt user_data style with
  | inr prompt => prompt
  | inl _ => []
  end.

(** * Properties *)

(** ** The model on sample inputs *)

Example str_of_int_404 : str_of_int 404 = lit "404".
Proof. reflexivity. Qed.

Example strip_controls : strip ([0x85; 32] ++ lit "a b" ++ [0x1F; 10]) = lit "a b".
Proof. reflexivity. Qed.

Example split1_trailing_newline :
  split1 10 (lit "EXPERIENCE
- Did X
") = [lit "EXPERIENCE"; lit "- Did X"; []].
Proof. reflexivity. Qed.

Example isupper_samples :
  @isupper ucd_excerpt (lit "A1 2") = true /\
  @isupper ucd_excerpt (lit "12") = false /\
  @isupper ucd_excerpt (lit "Experience") = false /\
  @isupper ucd_excerpt [0xDF] = false /\
  @upper ucd_excerpt (lit "Jane " ++ [0xFF; 0xDF]) = lit "JANE " ++ [0x178; 0x53; 0x53].
Proof. repeat split. Qed.

Example validators_samples (U : Ucd) :
  validate_email (lit "jane@ex.com") = true /\
  validate_email (lit "jane@ex.com" ++ [10]) = true /\
  validate_email (lit "jane@ex") = false /\
  validate_phone (lit "+1 (555) 123-4567") = true /\
  validate_phone (lit "555-0100") = false /\
  validate_linkedin (lit "linkedin.com/in/johndoe/") = true /\
  validate_linkedin (lit "https://example.com/in/johndoe") = false /\
  validate_github (lit "github.com/johndoe") = true /\
  validate_github (lit "github.com/john_doe") = false.
Proof. repeat split; vm_compute; reflexivity. Qed.

Example replacements_keys :
  map fst replacements =
  [0x2022; 0x2013; 0x2014; 0x2019; 0x201C; 0x201D; 0x2026; 0xA0; 0x2212; 0xB7;
   0x25CF; 0x25CB; 0x25A0; 0x25A1; 0x2192; 0x2190; 0xAE; 0xA9; 0x2122; 0x2500;
   0x2502; 0x2605; 0x2606].
Proof. reflexivity. Qed.

Example clean_text_for_pdf_sample :
  @clean_text_for_pdf ucd_excerpt
    ([0x201C] ++ lit "caf" ++ [0xE9; 0x201D; 0x2026; 0x2192; 0x4E2D; 0x3000; 0x1F680;
                               0x2122])
  = [34] ++ lit "caf" ++ [0xE9; 34] ++ lit "...->? (TM)".
Proof. reflexivity. Qed.

Example header_jane_social :
  @header ucd_excerpt jane_social
  = inr [set_font "Arial" "B" 20; cell 0 15 (lit "JANE DOE") 0 1 "C";
         set_font "Arial" regular 11;
         cell 0 8 (lit "555-0100 | jane@ex.com") 0 1 "C";
         set_font "Arial" regular 10;
         cell 0 6 (lit "LinkedIn: https://linkedin.com/in/jdoe | GitHub: https://github.com/jdoe")
           0 1 "C";
         ln 10].
Proof. reflexivity. Qed.

(** ** The matcher of the validators *)

Lemma nullable_spec r : nullable r = true <-> lang r [].
Proof.
  induction r as [| |p|r1 IH1 r2 IH2|r1 IH1 r2 IH2|r IH]; simpl.
  - split; [discriminate | intros H; inv H].
  - split; [constructor | reflexivity].
  - split; [discriminate | intros H; inv H].
  - rewrite andb_true_iff, IH1, IH2. split.
    + intros [H1 H2]. apply (lang_cat r1 r2 [] [] H1 H2).
    + intros H. inv H.
      match goal with E : _ ++ _ = [] |- _ => apply app_eq_nil in E as [-> ->] end.
      split; assumption.
  - rewrite orb_true_iff, IH1, IH2. split.
    + intros [H|H]; [apply lang_alt_l | apply lang_alt_r]; exact H.
    + intros H. inv H; [left | right]; assumption.
  - split; [constructor | reflexivity].
Qed.

Lemma lang_star_cons_inv r c s :
  lang (Star r) (c :: s) ->
  exists s1 s2, s = s1 ++ s2 /\ lang r (c :: s1) /\ lang (Star r) s2.
Proof.
  intros H. remember (Star r) as r' eqn:Er. remember (c :: s) as w eqn:Ew.
  induction H as [| | | | | |r0 s1 s2 H1 _ H2 IH2]; try discriminate.
  injection Er as ->. destruct s1 as [|c' s1'].
  - apply IH2; [reflexivity | exact Ew].
  - injection Ew as -> <-. exists s1', s2. auto.
Qed.

Lemma lang_cat_cons_inv r1 r2 c s :
  lang (Cat r1 r2) (c :: s) ->
  (lang r1 [] /\ lang r2 (c :: s)) \/
  exists s1 s2, s = s1 ++ s2 /\ lang r1 (c :: s1) /\ lang r2 s2.
Proof.
  intros H. inv H.
  match goal with E : ?s1 ++ ?s2 = c :: s |- _ => destruct s1 as [|c' s1']; simpl in E end.
  - subst. left. split; assumption.
  - match goal with E : _ :: _ = _ :: _ |- _ => injection E as -> <- end.
    right. eauto.
Qed.

Lemma deriv_spec r c s : lang (deriv c r) s <-> lang r (c :: s).
Proof.
  revert s. induction r as [| |p|r1 IH1 r2 IH2|r1 IH1 r2 IH2|r IH]; intros s; simpl.
  - split; intros H; inv H.
  - split; intros H; inv H.
  - destruct (p c) eqn:E; split; intros H; inv H.
    + constructor. exact E.
    + constructor.
    + congruence.
  - assert (Hcat : lang (Cat (deriv c r1) r2) s -> lang (Cat r1 r2) (c :: s)).
    { intros H. inv H.
      match goal with H1 : lang (deriv c r1) ?s1, H2 : lang r2 ?s2 |- _ =>
        apply IH1 in H1; apply (lang_cat r1 r2 (c :: s1) s2 H1 H2) end. }
    assert (Hinv : lang (Cat r1 r2) (c :: s) ->
                   (lang r1 [] /\ lang (deriv c r2) s) \/ lang (Cat (deriv c r1) r2) s).
    { intros H. apply lang_cat_cons_inv in H as [[H1 H2]|(s1 & s2 & -> & H1 & H2)].
      - left. split; [exact H1 | apply IH2; exact H2].
      - right. apply lang_cat; [apply IH1|]; assumption. }
    destruct (nullable r1) eqn:N; split.
    + intros H. inv H; [auto|].
      apply nullable_spec in N.
      match goal with H2 : lang (deriv c r2) s |- _ =>
        apply IH2 in H2; apply (lang_cat r1 r2 [] (c :: s) N H2) end.
    + intros H. destruct (Hinv H) as [[_ H2]|H2].
      * apply lang_alt_r. exact H2.
      * apply lang_alt_l. exact H2.
    + apply Hcat.
    + intros H. destruct (Hinv H) as [[H1 _]|H2]; [|exact H2].
      apply nullable_spec in H1. congruence.
  - split; intros H; inv H;
      solve [apply lang_alt_l; apply IH1; assumption
            | apply lang_alt_r; apply IH2; assumption].
  - split.
    + intros H. inv H.
      match goal with H1 : lang (deriv c r) ?s1, H2 : lang (Star r) ?s2 |- _ =>
        apply IH in H1; apply (lang_star_cons r (c :: s1) s2 H1 H2) end.
    + intros H. apply lang_star_cons_inv in H as (s1 & s2 & -> & H1 & H2).
      apply lang_cat; [apply IH|]; assumption.
Qed.

(** The derivative matcher decides the language of the pattern. *)
Lemma accepts_spec r s : accepts r s = true <-> lang r s.
Proof.
  revert r. induction s as [|c s IH]; intros r; simpl.
  - apply nullable_spec.
  - rewrite IH. apply deriv_spec.
Qed.

(** [re.match] on an anchored pattern: the whole string is a word of the
    pattern, or the string without its final newline is. *)
Lemma match_anchored_spec r s :
  match_anchored r s = true <-> lang r s \/ exists t, s = t ++ [10] /\ lang r t.
Proof.
  unfold match_anchored. rewrite orb_true_iff, accepts_spec.
  split; (intros [H|H]; [left; exact H | right]).
  - destruct (rev s) as [|c t] eqn:E; [discriminate|].
    apply andb_true_iff in H as [Hc H]. apply Z.eqb_eq in Hc as ->.
    exists (rev t). split; [|apply accepts_spec; exact H].
    rewrite <- (rev_involutive s), E. reflexivity.
  - destruct H as (t & -> & H). rewrite rev_app_distr. simpl.
    rewrite rev_involutive. apply accepts_spec. exact H.
Qed.

Lemma validate_email_spec email :
  validate_email email = true <->
  lang email_pattern email \/ exists t, email = t ++ [10] /\ lang email_pattern t.
Proof. apply match_anchored_spec. Qed.

(** ** The sanitizer works character by character *)

Section Sanitizer.
Context {U : Ucd}.

Lemma flat_map_fixed {A} (f : A -> list A) (l : list A) :
  (forall d, In d l -> f d = [d]) -> flat_map f l = l.
Proof.
  induction l as [|a l IH]; intros H; simpl; [reflexivity|].
  rewrite (H a) by (left; reflexivity). simpl. f_equal.
  apply IH. intros d Hd. apply H. right. exact Hd.
Qed.

Lemma flat_map_compose {A B C} (f : B -> list C) (g : A -> list B) (l : list A) :
  flat_map f (flat_map g l) = flat_map (fun a => flat_map f (g a)) l.
Proof.
  induction l as [|a l IH]; simpl; [reflexivity|].
  rewrite flat_map_app, IH. reflexivity.
Qed.

Lemma apply_replacements_app items a b :
  apply_replacements items (a ++ b)
  = apply_replacements items a ++ apply_replacements items b.
Proof.
  revert a b. induction items as [|[k v] items IH]; intros a b; simpl; [reflexivity|].
  unfold replace1. rewrite flat_map_app. apply IH.
Qed.

Lemma apply_replacements_nil items : apply_replacements items [] = [].
Proof. induction items as [|[k v] items IH]; simpl; [reflexivity | exact IH]. Qed.

Lemma apply_replacements_flat items t :
  apply_replacements items t = flat_map (fun c => apply_replacements items [c]) t.
Proof.
  induction t as [|c t IH]; simpl.
  - apply apply_replacements_nil.
  - change (c :: t) with ([c] ++ t).
    rewrite apply_replacements_app, IH. reflexivity.
Qed.

(** A character that is no key of the table goes through it unchanged. *)
Lemma apply_replacements_other items c :
  Forall (fun kv => fst kv <> c) items -> apply_replacements items [c] = [c].
Proof.
  induction 1 as [|[k v] items Hk _ IH]; simpl; [reflexivity|].
  simpl in Hk. destruct (Z.eqb_spec c k) as [->|_]; [congruence|]. exact IH.
Qed.

Lemma is_key_false c :
  is_key c = false -> Forall (fun kv : Z * pystr => fst kv <> c) replacements.
Proof.
  unfold is_key. generalize replacements as items.
  induction items as [|kv items IH]; simpl; intros H; constructor.
  - apply orb_false_elim in H as [H _]. apply Z.eqb_neq. exact H.
  - apply IH. apply orb_false_elim in H as [_ H]. exact H.
Qed.

Lemma is_key_true c : is_key c = true -> In c (map fst replacements).
Proof.
  unfold is_key. generalize replacements as items.
  induction items as [|kv items IH]; simpl; intros H; [discriminate|].
  apply orb_true_iff in H as [H|H].
  - left. apply Z.eqb_eq. exact H.
  - right. apply IH. exact H.
Qed.

Lemma clean_text_for_pdf_flat text :
  clean_text_for_pdf text = flat_map clean_char text.
Proof.
  unfold clean_text_for_pdf, fallback_pass, clean_char, fallback_pass.
  rewrite apply_replacements_flat, flat_map_compose. reflexivity.
Qed.

Lemma clean_char_other c : is_key c = false -> clean_char c = fallback_char c.
Proof.
  intros H. unfold clean_char, fallback_pass.
  rewrite apply_replacements_other by (apply is_key_false; exact H).
  simpl. apply app_nil_r.
Qed.

Lemma fallback_char_ascii c : c < 128 -> fallback_char c = [c].
Proof. intros H. unfold fallback_char. rewrite (proj2 (Z.ltb_lt c 128) H). reflexivity. Qed.

(** The replacement of every key consists of characters that a second run
    leaves alone. *)
Lemma replacements_stable :
  forallb (fun k => forallb (fun d => bool_decide (clean_char d = [d]) && (d <? 256))
                      (clean_char k))
          (map fst replacements) = true.
Proof. vm_compute. reflexivity. Qed.

(** Every character the sanitizer emits is below 256 and is left alone by
    a second run. *)
Lemma clean_char_stable c d :
  In d (clean_char c) -> clean_char d = [d] /\ d < 256.
Proof.
  destruct (is_key c) eqn:Hkey.
  - apply is_key_true in Hkey. intros Hd.
    pose proof replacements_stable as Hall.
    rewrite forallb_forall in Hall. specialize (Hall c Hkey).
    rewrite forallb_forall in Hall. specialize (Hall d Hd).
    apply andb_true_iff in Hall as [H1 H2].
    split; [exact (bool_decide_eq_true_1 _ H1) | apply Z.ltb_lt; exact H2].
  - rewrite (clean_char_other c Hkey).
    assert (Hq : clean_char 63 = [63] /\ 63 < 256) by (split; reflexivity).
    assert (Hs : clean_char 32 = [32] /\ 32 < 256) by (split; reflexivity).
    assert (Hc : fallback_char c = [c] -> c < 256 -> clean_char c = [c] /\ c < 256).
    { intros E L. split; [|exact L]. rewrite clean_char_other by exact Hkey. exact E. }
    pose proof (Hc' := Hc). revert Hc'.
    unfold fallback_char at 1 2.
    destruct (Z.ltb_spec c 128) as [L|L].
    { intros Hc' [<-|[]]. apply Hc'; [reflexivity|lia]. }
    destruct (isalpha c), (isdigit c), (isspace c), (Z.ltb_spec c 256);
      simpl; intros Hc' Hd;
      repeat match goal with
             | H : _ \/ _ |- _ => destruct H as [<-|H]
             | H : False |- _ => contradiction
             end;
      try exact Hq; try exact Hs; apply Hc'; (reflexivity || assumption).
Qed.

Lemma clean_char_idem c : flat_map clean_char (clean_char c) = clean_char c.
Proof. apply flat_map_fixed. intros d Hd. apply (clean_char_stable c d Hd). Qed.

End Sanitizer.

(** C1.  The sanitizer is a total function on code-point sequences: it
    returns a string for every input and has no raising path.  Running it
    twice gives the result of running it once, and no character of its
    result has a code point of 256 or more. *)
Theorem clean_text_for_pdf_total_idempotent :
  forall (U : Ucd) (s : pystr),
    exists out : pystr,
      clean_text_for_pdf s = out /\
      clean_text_for_pdf out = out /\
      Forall (fun c => c < 256) out.
Proof.
  intros U s. exists (clean_text_for_pdf s). split; [reflexivity|]. split.
  - rewrite !clean_text_for_pdf_flat, flat_map_compose.
    apply flat_map_ext. intros c. apply clean_char_idem.
  - rewrite clean_text_for_pdf_flat. apply List.Forall_forall. intros d Hd.
    apply in_flat_map in Hd as (c & _ & Hd).
    apply (clean_char_stable c d Hd).
Qed.

(** C8.  The substitution table runs before the per-character pass: a lone
    em dash (U+2014) leaves the table as a hyphen, and the sanitizer
    returns the one-character string "-". *)
Theorem clean_text_for_pdf_em_dash :
  forall U : Ucd,
    apply_replacements replacements [0x2014] = lit "-" /\
    clean_text_for_pdf [0x2014] = lit "-".
Proof. intros U. split; reflexivity. Qed.

(** ** The per-character pass *)

Lemma isspace_latin1 c :
  128 <= c < 256 -> c <> 0x85 -> c <> 0xA0 -> isspace c = false.
Proof.
  intros Hc H1 H2. unfold isspace, in_range.
  rewrite !orb_false_iff, !andb_false_iff, !Z.leb_gt, !Z.eqb_neq. lia.
Qed.

(** C3, amended.  In the per-character pass a character below 256 goes
    through unchanged unless it is one of the two white-space characters
    of Latin-1 outside ASCII, U+0085 and U+00A0, which become a space (the
    table has already replaced U+00A0).  A character from 256 on becomes
    "?" when it is alphabetic or a digit, a space when it is white space,
    and is dropped otherwise. *)
Theorem fallback_char_classes :
  forall (U : Ucd) (c : Z),
    (c < 256 -> c <> 0x85 -> c <> 0xA0 -> fallback_char c = [c]) /\
    (c = 0x85 \/ c = 0xA0 -> fallback_char c = lit " ") /\
    (256 <= c ->
     fallback_char c =
       if isalpha c || isdigit c then lit "?"
       else if isspace c then lit " " else []).
Proof.
  intros U c. repeat split.
  - intros Hc H1 H2. unfold fallback_char.
    destruct (Z.ltb_spec c 128) as [L|L]; [reflexivity|].
    rewrite (isspace_latin1 c) by lia.
    rewrite (proj2 (Z.ltb_lt c 256) Hc).
    destruct (isalpha c), (isdigit c); reflexivity.
  - intros [-> | ->]; reflexivity.
  - intros Hc. unfold fallback_char.
    rewrite (proj2 (Z.ltb_ge c 128)) by lia.
    rewrite (proj2 (Z.ltb_ge c 256)) by lia.
    destruct (isalpha c), (isdigit c), (isspace c); reflexivity.
Qed.

Lemma fallback_char_classes_witness :
  @fallback_char ucd_excerpt 0x4E2D = lit "?" /\
  @fallback_char ucd_excerpt 0x3000 = lit " " /\
  @fallback_char ucd_excerpt 0x1F680 = [] /\
  @fallback_char ucd_excerpt 0xE9 = [0xE9].
Proof.
  split; [|split; [|split]].
  - exact (proj2 (proj2 (fallback_char_classes ucd_excerpt 0x4E2D)) ltac:(lia)).
  - exact (proj2 (proj2 (fallback_char_classes ucd_excerpt 0x3000)) ltac:(lia)).
  - exact (proj2 (proj2 (fallback_char_classes ucd_excerpt 0x1F680)) ltac:(lia)).
  - exact (proj1 (fallback_char_classes ucd_excerpt 0xE9)
             ltac:(lia) ltac:(lia) ltac:(lia)).
Defined.

(** C3 as stated fails at NEXT LINE (U+0085): it is below 256, the table
    does not mention it, and the pass turns it into a space. *)
Lemma fallback_pass_next_line :
  0x85 < 256 /\
  apply_replacements replacements [0x85] = [0x85] /\
  @fallback_pass ucd_excerpt [0x85] = lit " " /\
  @clean_text_for_pdf ucd_excerpt [0x85] = lit " ".
Proof. repeat split. Qed.

(** ** The prompt builder *)

Lemma startswith_spec s p : startswith s p = true <-> exists post, s = p ++ post.
Proof.
  revert s. induction p as [|a p IH]; intros [|b s]; simpl.
  - split; [intros _; exists []; reflexivity | reflexivity].
  - split; [intros _; exists (b :: s); reflexivity | reflexivity].
  - split; [discriminate | intros [post H]; discriminate].
  - rewrite andb_true_iff, Z.eqb_eq, IH. split.
    + intros [-> [post ->]]. exists post. reflexivity.
    + intros [post H]. injection H as -> ->. split; [reflexivity | eauto].
Qed.

(** The operator [in] of Python decides [substring]. *)
Lemma str_in_spec sub s : str_in sub s = true <-> substring sub s.
Proof.
  unfold substring. induction s as [|c s IH].
  - cbn [str_in]. rewrite orb_false_r, startswith_spec. split.
    + intros [post H]. exists [], post. exact H.
    + intros (pre & post & H). destruct pre; [exists post; exact H|].
      discriminate.
  - cbn [str_in]. rewrite orb_true_iff, startswith_spec, IH. split.
    + intros [[post H] | (pre & post & H)].
      * exists [], post. exact H.
      * exists (c :: pre), post. rewrite H. reflexivity.
    + intros (pre & post & H). destruct pre as [|c' pre].
      * left. exists post. exact H.
      * right. injection H as _ H. exists pre, post. exact H.
Qed.

Lemma substring_head (v s : pystr) : substring v (v ++ s).
Proof. exists [], s. reflexivity. Qed.

Lemma substring_skip (v p s : pystr) : substring v s -> substring v (p ++ s).
Proof.
  intros (pre & post & ->). exists (p ++ pre), post.
  rewrite <- app_assoc. reflexivity.
Qed.

Lemma substring_cons (v : pystr) c s : substring v s -> substring v (c :: s).
Proof. apply (substring_skip v [c] s). Qed.

Lemma getitem_Some (ud : gmap string pystr) k v : ud !! k = Some v -> getitem ud k = inr v.
Proof. intros H. unfold getitem. rewrite H. reflexivity. Qed.

Section Prompt.
Variables (ud : gmap string pystr).
Variables (name role phone email skills experience education : pystr).
Hypothesis Hname : ud !! "name"%string = Some name.
Hypothesis Hrole : ud !! "role"%string = Some role.
Hypothesis Hphone : ud !! "phone"%string = Some phone.
Hypothesis Hemail : ud !! "email"%string = Some email.
Hypothesis Hskills : ud !! "skills"%string = Some skills.
Hypothesis Hexperience : ud !! "experience"%string = Some experience.
Hypothesis Heducation : ud !! "education"%string = Some education.

Lemma base_info_lines :
  base_info ud =
  inr (join [10]
         [ []; lit "Name: " ++ name; lit "Role: " ++ role; lit "Phone: " ++ phone;
           lit "Email: " ++ email;
           lit "Location: " ++ default (lit "Not specified") (ud !! "location"%string);
           lit "Skills: " ++ skills; lit "Experience: " ++ experience;
           lit "Education: " ++ education;
           lit "Certifications: "
             ++ default (lit "None listed") (ud !! "certifications"%string);
           [] ]).
Proof.
  unfold base_info.
  rewrite (getitem_Some _ _ _ Hname), (getitem_Some _ _ _ Hrole),
    (getitem_Some _ _ _ Hphone), (getitem_Some _ _ _ Hemail),
    (getitem_Some _ _ _ Hskills), (getitem_Some _ _ _ Hexperience),
    (getitem_Some _ _ _ Heducation).
  unfold get_default, mret, result_ret. cbn [mbind result_bind join].
  reflexivity.
Qed.

(** Every style wraps the block between its opening and its requirements. *)
Lemma create_resume_prompt_shape style :
  exists opening requirements info,
    base_info ud = inr info /\
    create_resume_prompt ud style = inr (opening ++ info ++ requirements) /\
    (style = lit "professional" ->
     opening = professional_opening /\ requirements = professional_requirements) /\
    (style = lit "technical" ->
     opening = technical_opening /\ requirements = technical_requirements) /\
    (style = lit "creative" ->
     opening = creative_opening /\ requirements = creative_requirements) /\
    (style <> lit "professional" -> style <> lit "technical" ->
     style <> lit "creative" ->
     opening = academic_opening /\ requirements = academic_requirements).
Proof.
  unfold create_resume_prompt. rewrite base_info_lines.
  cbn [mbind result_bind].
  repeat case_decide; subst; do 3 eexists;
    (split; [reflexivity|]); (split; [reflexivity|]);
    repeat split; intros; try reflexivity; try discriminate; congruence.
Qed.

Lemma base_info_mentions v :
  In v [name; role; phone; email; skills; experience; education] ->
  exists info, base_info ud = inr info /\ substring v info.
Proof.
  intros Hv. eexists. split; [apply base_info_lines|].
  cbn [join]. rewrite <- !app_assoc. cbn [In] in Hv.
  repeat (destruct Hv as [<-|Hv];
          [repeat first [apply substring_head | apply substring_skip]|]).
  contradiction.
Qed.

End Prompt.

(** C4, amended.  For a profile that has its seven required fields, and
    for every style, the prompt is the opening of the style, then a block
    of nine label-and-value lines (Name, Role, Phone, Email, Location,
    Skills, Experience, Education, Certifications; "Not specified" and
    "None listed" stand in when the location or certifications key is
    absent), then the requirements of the style.  The block has no line
    for linkedin or github. *)
Theorem create_resume_prompt_block :
  forall (ud : gmap string pystr)
         (style name role phone email skills experience education : pystr),
    ud !! "name"%string = Some name ->
    ud !! "role"%string = Some role ->
    ud !! "phone"%string = Some phone ->
    ud !! "email"%string = Some email ->
    ud !! "skills"%string = Some skills ->
    ud !! "experience"%string = Some experience ->
    ud !! "education"%string = Some education ->
    exists opening requirements,
      create_resume_prompt ud style =
        inr (opening
             ++ join [10]
                  [ []; lit "Name: " ++ name; lit "Role: " ++ role;
                    lit "Phone: " ++ phone; lit "Email: " ++ email;
                    lit "Location: "
                      ++ default (lit "Not specified") (ud !! "location"%string);
                    lit "Skills: " ++ skills; lit "Experience: " ++ experience;
                    lit "Education: " ++ education;
                    lit "Certifications: "
                      ++ default (lit "None listed") (ud !! "certifications"%string);
                    [] ]
             ++ requirements) /\
      (style = lit "professional" ->
       opening = professional_opening /\ requirements = professional_requirements) /\
      (style = lit "technical" ->
       opening = technical_opening /\ requirements = technical_requirements) /\
      (style = lit "creative" ->
       opening = creative_opening /\ requirements = creative_requirements) /\
      (style <> lit "professional" -> style <> lit "technical" ->
       style <> lit "creative" ->
       opening = academic_opening /\ requirements = academic_requirements).
Proof.
  intros ud style name role phone email skills experience education
         Hn Hr Hp He Hs Hx Hd.
  destruct (create_resume_prompt_shape ud name role phone email skills experience
              education Hn Hr Hp He Hs Hx Hd style)
    as (opening & requirements & info & Hinfo & Hprompt & Hstyles).
  rewrite (base_info_lines ud name role phone email skills experience education
             Hn Hr Hp He Hs Hx Hd) in Hinfo.
  injection Hinfo as <-. exists opening, requirements. split; assumption.
Qed.

Lemma create_resume_prompt_block_witness :
  exists opening requirements,
    create_resume_prompt jane (lit "professional") =
      inr (opening ++ lit "
Name: Jane Doe
Role: Engineer
Phone: 555-0100
Email: jane@ex.com
Location: Not specified
Skills: Go
Experience: X
Education: Y
Certifications: None listed
" ++ requirements) /\
    opening = professional_opening /\ requirements = professional_requirements.
Proof.
  destruct (create_resume_prompt_block jane (lit "professional")
              (lit "Jane Doe") (lit "Engineer") (lit "555-0100") (lit "jane@ex.com")
              (lit "Go") (lit "X") (lit "Y")
              eq_refl eq_refl eq_refl eq_refl eq_refl eq_refl eq_refl)
    as (opening & requirements & Hprompt & Hpro & _).
  exists opening, requirements. split; [exact Hprompt | exact (Hpro eq_refl)].
Defined.

(** C4 as stated fails on a profile with both social links: no label and
    no value of linkedin or github occurs anywhere in the prompt. *)
Lemma create_resume_prompt_omits_social :
  jane_social !! "linkedin"%string = Some (lit "https://linkedin.com/in/jdoe") /\
  jane_social !! "github"%string = Some (lit "https://github.com/jdoe") /\
  exists prompt,
    create_resume_prompt jane_social (lit "professional") = inr prompt /\
    str_in (lit "LinkedIn") prompt = false /\
    str_in (lit "linkedin") prompt = false /\
    str_in (lit "GitHub") prompt = false /\
    str_in (lit "github") prompt = false.
Proof.
  split; [reflexivity|]. split; [reflexivity|].
  eexists. split; [vm_compute; reflexivity|].
  repeat split; vm_compute; reflexivity.
Qed.

(** C9.  The prompt builder is a function of the profile and the style
    alone, so the same pair gives the same characters; for a profile that
    has its required fields and for every style (the four named ones
    among them) the value of each required field occurs verbatim in the
    prompt.  For the profile of the end-to-end scenario and the
    professional style the prompt contains "Name: Jane Doe" and
    "Skills: Go". *)
Theorem create_resume_prompt_verbatim :
  (forall (ud : gmap string pystr)
          (style name role phone email skills experience education : pystr),
      ud !! "name"%string = Some name ->
      ud !! "role"%string = Some role ->
      ud !! "phone"%string = Some phone ->
      ud !! "email"%string = Some email ->
      ud !! "skills"%string = Some skills ->
      ud !! "experience"%string = Some experience ->
      ud !! "education"%string = Some education ->
      exists prompt,
        create_resume_prompt ud style = inr prompt /\
        (forall ud' style' prompt', ud' = ud -> style' = style ->
           create_resume_prompt ud' style' = inr prompt' -> prompt' = prompt) /\
        Forall (fun v => substring v prompt)
          [name; role; phone; email; skills; experience; education]) /\
  (exists prompt,
      create_resume_prompt jane (lit "professional") = inr prompt /\
      str_in (lit "Name: Jane Doe") prompt = true /\
      str_in (lit "Skills: Go") prompt = true).
Proof.
  split.
  - intros ud style name role phone email skills experience education
           Hn Hr Hp He Hs Hx Hd.
    destruct (create_resume_prompt_shape ud name role phone email skills experience
                education Hn Hr Hp He Hs Hx Hd style)
      as (opening & requirements & info & Hinfo & Hprompt & _).
    exists (opening ++ info ++ requirements). split; [exact Hprompt|]. split.
    + intros ud' style' prompt' -> -> H. congruence.
    + apply List.Forall_forall. intros v Hv.
      destruct (base_info_mentions ud name role phone email skills experience
                  education Hn Hr Hp He Hs Hx Hd v Hv) as (info' & Hinfo' & Hsub).
      assert (info' = info) as -> by congruence.
      apply substring_skip. destruct Hsub as (pre & post & ->).
      exists pre, (post ++ requirements). rewrite <- !app_assoc. reflexivity.
  - eexists. split; [vm_compute; reflexivity|]. split; vm_compute; reflexivity.
Qed.

Lemma create_resume_prompt_verbatim_witness :
  exists prompt,
    create_resume_prompt jane (lit "academic") = inr prompt /\
    Forall (fun v => substring v prompt)
      [lit "Jane Doe"; lit "Engineer"; lit "555-0100"; lit "jane@ex.com";
       lit "Go"; lit "X"; lit "Y"].
Proof.
  destruct (proj1 create_resume_prompt_verbatim jane (lit "academic")
              (lit "Jane Doe") (lit "Engineer") (lit "555-0100") (lit "jane@ex.com")
              (lit "Go") (lit "X") (lit "Y")
              eq_refl eq_refl eq_refl eq_refl eq_refl eq_refl eq_refl)
    as (prompt & Hprompt & _ & Hall).
  exists prompt. split; [exact Hprompt | exact Hall].
Defined.

(** ** The generation client *)

Section ClientFacts.
Context {U : Ucd}.
Variable net : network.
Variables api_key project_id : pystr.

Lemma missing_fields_nil (ud : gmap string pystr) :
  missing_fields ud = [] <->
  forall field, In field required_fields -> strip (get_default ud field []) <> [].
Proof.
  unfold missing_fields. split.
  - intros H field Hin Hblank.
    apply (filter_nil_not_elem_of _ _ field H Hblank).
    apply list_elem_of_In. exact Hin.
  - intros H. destruct (filter _ _) as [|field rest] eqn:E; [reflexivity|].
    assert (Hf : field ∈ filter (fun f => strip (get_default ud f []) = [])
                   required_fields) by (rewrite E; left).
    apply list_elem_of_filter in Hf as [Hblank Hin].
    apply list_elem_of_In in Hin. destruct (H field Hin Hblank).
Qed.

Lemma missing_fields_cons (ud : gmap string pystr) field :
  In field required_fields -> strip (get_default ud field []) = [] ->
  missing_fields ud <> [].
Proof.
  intros Hin Hblank Hnil. apply (proj1 (missing_fields_nil ud) Hnil field Hin Hblank).
Qed.

(** A profile without missing fields has every required key. *)
Lemma missing_fields_lookup (ud : gmap string pystr) field :
  missing_fields ud = [] -> In field required_fields ->
  exists v, ud !! field = Some v /\ strip v <> [].
Proof.
  intros Hnil Hin. pose proof (proj1 (missing_fields_nil ud) Hnil field Hin) as H.
  unfold get_default in H. destruct (ud !! field) as [v|]; [eauto|].
  exfalso. apply H. reflexivity.
Qed.

Lemma create_resume_prompt_defined (ud : gmap string pystr) style :
  missing_fields ud = [] -> exists prompt, create_resume_prompt ud style = inr prompt.
Proof.
  intros Hnil.
  pose proof (missing_fields_lookup ud) as L.
  destruct (L "name"%string Hnil) as (name & Hn & _); [cbn; tauto|].
  destruct (L "role"%string Hnil) as (role & Hr & _); [cbn; tauto|].
  destruct (L "phone"%string Hnil) as (phone & Hp & _); [cbn; tauto|].
  destruct (L "email"%string Hnil) as (email & He & _); [cbn; tauto|].
  destruct (L "skills"%string Hnil) as (skills & Hs & _); [cbn; tauto|].
  destruct (L "experience"%string Hnil) as (experience & Hx & _); [cbn; tauto|].
  destruct (L "education"%string Hnil) as (education & Hd & _); [cbn; tauto|].
  destruct (create_resume_prompt_shape ud name role phone email skills experience
              education Hn Hr Hp He Hs Hx Hd style) as (o & r & i & _ & H & _).
  eauto.
Qed.

(** After validation the pipeline is the token exchange followed by the
    generation request. *)
Lemma generate_resume_validated (ud : gmap string pystr) model_id style
    email phone prompt sent :
  missing_fields ud = [] ->
  ud !! "email"%string = Some email -> validate_email email = true ->
  ud !! "phone"%string = Some phone -> validate_phone phone = true ->
  create_resume_prompt ud style = inr prompt ->
  generate_resume net api_key project_id ud model_id style sent =
  match get_iam_token net api_key sent with
  | (inl e, sent') => (inl e, sent')
  | (inr token, sent') => safe_api_call (_generate net project_id token model_id prompt) sent'
  end.
Proof.
  intros Hnil He Hve Hp Hvp Hprompt. unfold generate_resume.
  rewrite Hnil. unfold mbind, client_bind, lift.
  rewrite (getitem_Some _ _ _ He), Hve, (getitem_Some _ _ _ Hp), Hvp, Hprompt.
  reflexivity.
Qed.

End ClientFacts.

Ltac run_client :=
  unfold get_iam_token, safe_api_call, _get_token, _generate, post_iam,
    post_generation, mbind, client_bind, raise, lift, mret, client_ret.

Ltac status_cases :=
  repeat match goal with
         | H : ?x = ?n |- context [Z.eqb ?x _] => rewrite H; cbn
         | |- context [Z.eqb ?x ?n] => destruct (Z.eqb_spec x n); [congruence|]; cbn
         end.

(** C5.  Every message below is that of the [ResumeGeneratorError] the
    client raises; [safe_api_call] puts "Unexpected error: " in front of
    the message of the status.  A failed token exchange (400 malformed
    key, 401 authentication, 403 authorization, any other status but 200)
    is classified with only the token request sent; the generation
    request maps 404, 403, 429 and any other status but 200; a 200 answer
    without results, with an empty list of results, or with a blank
    generated text is a failure. *)
Theorem generation_client_classification :
  forall (U : Ucd) (net : network) (api_key project_id : pystr)
         (ud : gmap string pystr) (model_id style email phone prompt : pystr)
         (sent : list call),
    missing_fields ud = [] ->
    ud !! "email"%string = Some email -> validate_email email = true ->
    ud !! "phone"%string = Some phone -> validate_phone phone = true ->
    create_resume_prompt ud style = inr prompt ->
    let run := generate_resume net api_key project_id ud model_id style sent in
    let url := WATSONX_URL ++ lit "/ml/v1/text/generation?version=" ++ API_VERSION in
    let failed (msg : pystr) : result pystr :=
      inl (ResumeGeneratorError (cross ++ lit " Unexpected error: " ++ cross ++ msg)) in
    (forall resp, iam_service net api_key = inr resp ->
       let sent1 := sent ++ [IamPost api_key] in
       (status_code resp = 400 -> run = (failed (lit " Invalid API key format"), sent1)) /\
       (status_code resp = 401 ->
        run = (failed (lit " API key authentication failed"), sent1)) /\
       (status_code resp = 403 -> run = (failed (lit " API key access denied"), sent1)) /\
       (status_code resp <> 200 -> status_code resp <> 400 ->
        status_code resp <> 401 -> status_code resp <> 403 ->
        run = (failed (lit " IAM token error [" ++ str_of_int (status_code resp)
                       ++ lit "]: " ++ text resp), sent1))) /\
    (forall resp token gresp,
       iam_service net api_key = inr resp -> status_code resp = 200 ->
       json resp = inr (Some token) ->
       generation_service net url token model_id prompt project_id = inr gresp ->
       let sent2 :=
         sent ++ [IamPost api_key; GenerationPost url token model_id prompt project_id] in
       (status_code gresp = 404 ->
        run = (failed (lit " Model not available. Try a different model."), sent2)) /\
       (status_code gresp = 403 ->
        run = (failed (lit " Access denied. Check your project setup."), sent2)) /\
       (status_code gresp = 429 ->
        run = (failed (lit " Rate limit exceeded. Please wait a moment and try again."),
               sent2)) /\
       (status_code gresp <> 200 -> status_code gresp <> 404 ->
        status_code gresp <> 403 -> status_code gresp <> 429 ->
        run = (failed (lit " API error [" ++ str_of_int (status_code gresp)
                       ++ lit "]: " ++ text gresp), sent2)) /\
       (status_code gresp = 200 ->
        json gresp = inr None \/ json gresp = inr (Some []) ->
        run = (failed (lit " No response from model"), sent2)) /\
       (forall first rest,
          status_code gresp = 200 -> json gresp = inr (Some (first :: rest)) ->
          strip (default [] first) = [] ->
          run = (failed (lit " Empty response. Try again."), sent2)) /\
       (forall first rest,
          status_code gresp = 200 -> json gresp = inr (Some (first :: rest)) ->
          strip (default [] first) <> [] ->
          run = (inr (strip (default [] first)), sent2))).
Proof.
  intros U net api_key project_id ud model_id style email phone prompt sent
         Hnil He Hve Hp Hvp Hprompt run url failed.
  subst run failed.
  rewrite (generate_resume_validated net api_key project_id ud model_id style
             email phone prompt sent Hnil He Hve Hp Hvp Hprompt).
  split.
  - intros resp Hiam sent1. subst sent1. run_client. rewrite Hiam.
    repeat split; intros; status_cases; reflexivity.
  - intros resp token gresp Hiam H200 Htoken Hgen sent2. subst sent2.
    run_client. fold url. clearbody url. rewrite Hiam, H200, Htoken. cbn.
    rewrite Hgen, <- app_assoc. cbn [app].
    repeat split; intros; status_cases; try reflexivity.
    + destruct H0 as [-> | ->]; reflexivity.
    + rewrite H0. cbn. rewrite H1. reflexivity.
    + rewrite H0. cbn. destruct (strip (default [] first)); [congruence | reflexivity].
Qed.

Lemma generation_client_classification_witness :
  generate_resume
    (constant_network (inr (Response 401 (lit "unauthorized") (inr None)))
                      (inl (TimeoutException [])))
    (lit "key") (lit "project") john (lit "ibm/granite-13b-instruct-v2")
    (lit "professional") [] =
  (inl (ResumeGeneratorError
          (cross ++ lit " Unexpected error: " ++ cross
           ++ lit " API key authentication failed")),
   [IamPost (lit "key")]).
Proof.
  exact (proj1 (proj2
           (proj1 (generation_client_classification ucd_excerpt
                     (constant_network
                        (inr (Response 401 (lit "unauthorized") (inr None)))
                        (inl (TimeoutException [])))
                     (lit "key") (lit "project") john
                     (lit "ibm/granite-13b-instruct-v2") (lit "professional")
                     (lit "john@example.com") (lit "+1 (555) 123-4567")
                     (prompt_of john (lit "professional")) []
                     eq_refl eq_refl eq_refl eq_refl eq_refl eq_refl)
              (Response 401 (lit "unauthorized") (inr None)) eq_refl))
           eq_refl).
Defined.

(** ** Validation *)

Section ValidationFacts.
Context {U : Ucd}.
Variable net : network.
Variables api_key project_id : pystr.

(** [generate_resume] reads nine keys of the profile and no other. *)
Lemma generate_resume_agree (ud ud' : gmap string pystr) model_id style sent :
  (forall k, In k (required_fields ++ ["location"; "certifications"]%string) ->
             ud' !! k = ud !! k) ->
  create_resume_prompt ud' style = create_resume_prompt ud style /\
  generate_resume net api_key project_id ud' model_id style sent
  = generate_resume net api_key project_id ud model_id style sent.
Proof.
  intros H.
  assert (Hn := H "name"%string ltac:(cbn; tauto)).
  assert (Hr := H "role"%string ltac:(cbn; tauto)).
  assert (Hs := H "skills"%string ltac:(cbn; tauto)).
  assert (Hx := H "experience"%string ltac:(cbn; tauto)).
  assert (Hd := H "education"%string ltac:(cbn; tauto)).
  assert (Hp := H "phone"%string ltac:(cbn; tauto)).
  assert (He := H "email"%string ltac:(cbn; tauto)).
  assert (Hl := H "location"%string ltac:(cbn; tauto)).
  assert (Hc := H "certifications"%string ltac:(cbn; tauto)).
  assert (Hprompt : create_resume_prompt ud' style = create_resume_prompt ud style).
  { unfold create_resume_prompt, base_info, getitem, get_default.
    rewrite Hn, Hr, Hs, Hx, Hd, Hp, He, Hl, Hc. reflexivity. }
  split; [exact Hprompt|].
  unfold generate_resume. rewrite Hprompt.
  unfold missing_fields, required_fields, getitem, get_default.
  rewrite !filter_cons, !filter_nil, Hn, Hr, Hs, Hx, Hd, Hp, He. reflexivity.
Qed.

Lemma insert_social_agree (ud : gmap string pystr) linkedin github k :
  In k (required_fields ++ ["location"; "certifications"]%string) ->
  <["linkedin"%string := linkedin]> (<["github"%string := github]> ud) !! k = ud !! k
  /\ <["linkedin"%string := linkedin]> ud !! k = ud !! k.
Proof.
  intros Hk. cbn in Hk.
  repeat (destruct Hk as [<-|Hk];
          [split; rewrite ?lookup_insert_ne by discriminate; reflexivity|]).
  contradiction.
Qed.

(** The token request is always sent, the generation request too once a
    token is there. *)
Lemma get_iam_token_sends sent :
  exists outcome, get_iam_token net api_key sent = (outcome, sent ++ [IamPost api_key]).
Proof.
  run_client. destruct (iam_service net api_key) as [e|resp].
  - destruct e; eauto.
  - destruct (status_code resp =? 200); cbn.
    + destruct (json resp) as [e|[token|]]; [destruct e| |]; eauto.
    + destruct (status_code resp =? 400); [eauto|].
      destruct (status_code resp =? 401); [eauto|].
      destruct (status_code resp =? 403); eauto.
Qed.

Lemma generate_sends token model_id prompt sent :
  exists outcome,
    safe_api_call (_generate net project_id token model_id prompt) sent
    = (outcome,
       sent ++ [GenerationPost
                  (WATSONX_URL ++ lit "/ml/v1/text/generation?version=" ++ API_VERSION)
                  token model_id prompt project_id]).
Proof.
  run_client. destruct (generation_service _ _ _ _ _ _) as [e|resp].
  - destruct e; eauto.
  - destruct (status_code resp =? 404); [eauto|].
    destruct (status_code resp =? 403); [eauto|].
    destruct (status_code resp =? 429); [eauto|].
    destruct (status_code resp =? 200); cbn; [|eauto].
    destruct (json resp) as [e|[[|first rest]|]]; [destruct e| | |]; eauto.
    destruct (strip (default [] first)); eauto.
Qed.

Lemma generate_resume_reaches_network (ud : gmap string pystr) model_id style
    email phone sent :
  missing_fields ud = [] ->
  ud !! "email"%string = Some email -> validate_email email = true ->
  ud !! "phone"%string = Some phone -> validate_phone phone = true ->
  exists outcome rest,
    generate_resume net api_key project_id ud model_id style sent
    = (outcome, sent ++ IamPost api_key :: rest).
Proof.
  intros Hnil He Hve Hp Hvp.
  destruct (create_resume_prompt_defined ud style Hnil) as [prompt Hprompt].
  rewrite (generate_resume_validated net api_key project_id ud model_id style
             email phone prompt sent Hnil He Hve Hp Hvp Hprompt).
  destruct (get_iam_token_sends sent) as [[e|token] ->]; [eauto|].
  destruct (generate_sends token model_id prompt (sent ++ [IamPost api_key]))
    as [outcome ->].
  rewrite <- app_assoc. cbn [app]. eauto.
Qed.

End ValidationFacts.

(** C6.  [generate_resume] raises, with no request sent, whenever a
    required field is blank after trimming (the field is then named in
    the message), the email fails its pattern, or the phone fails its
    pattern; "not-an-email" and "abc" fail.  Both linkedin values of
    the claim pass [validate_linkedin], and a valid profile carrying
    either of them gets past validation: the token request is sent. *)
Theorem generate_resume_validation :
  forall (U : Ucd) (net : network) (api_key project_id : pystr)
         (ud : gmap string pystr) (model_id style : pystr) (sent : list call),
    let run := generate_resume net api_key project_id ud model_id style sent in
    ((exists field, In field required_fields /\ strip (get_default ud field []) = []) \/
     (exists email, ud !! "email"%string = Some email /\ validate_email email = false) \/
     (exists phone, ud !! "phone"%string = Some phone /\ validate_phone phone = false) ->
     exists msg, run = (inl (ResumeGeneratorError msg), sent)) /\
    (forall field,
       In field required_fields -> strip (get_default ud field []) = [] ->
       In field (missing_fields ud) /\
       run = (inl (ResumeGeneratorError
                     (cross ++ lit " Missing required fields: "
                      ++ join (lit ", ") (map lit (missing_fields ud)))), sent)) /\
    (forall email,
       missing_fields ud = [] ->
       ud !! "email"%string = Some email -> validate_email email = false ->
       run = (inl (ResumeGeneratorError (cross ++ lit " Invalid email format")), sent)) /\
    (forall email phone,
       missing_fields ud = [] ->
       ud !! "email"%string = Some email -> validate_email email = true ->
       ud !! "phone"%string = Some phone -> validate_phone phone = false ->
       run = (inl (ResumeGeneratorError (cross ++ lit " Invalid phone number format")),
              sent)) /\
    validate_email (lit "not-an-email") = false /\
    validate_phone (lit "abc") = false /\
    validate_linkedin [] = true /\
    validate_linkedin (lit "https://linkedin.com/in/jdoe") = true /\
    (forall email phone linkedin,
       missing_fields ud = [] ->
       ud !! "email"%string = Some email -> validate_email email = true ->
       ud !! "phone"%string = Some phone -> validate_phone phone = true ->
       linkedin = [] \/ linkedin = lit "https://linkedin.com/in/jdoe" ->
       exists outcome rest,
         generate_resume net api_key project_id
           (<["linkedin"%string := linkedin]> ud) model_id style sent
         = (outcome, sent ++ IamPost api_key :: rest)).
Proof.
  intros U net api_key project_id ud model_id style sent run. subst run.
  split; [|split; [|split; [|split; [|split; [|split; [|split; [|split]]]]]]].
  5-8: vm_compute; reflexivity.
  - intros Hbad. unfold generate_resume.
    destruct (missing_fields ud) as [|f fs] eqn:Hnil; [|eauto].
    destruct (missing_fields_lookup ud "email"%string Hnil) as (e & He & _);
      [cbn; tauto|].
    destruct (missing_fields_lookup ud "phone"%string Hnil) as (p & Hp & _);
      [cbn; tauto|].
    unfold mbind, client_bind, lift. rewrite (getitem_Some _ _ _ He).
    destruct (validate_email e) eqn:Hve; [|eauto].
    rewrite (getitem_Some _ _ _ Hp).
    destruct (validate_phone p) eqn:Hvp; [|eauto].
    exfalso. destruct Hbad as [(field & Hin & Hblank) | [(e' & He' & Hv) | (p' & Hp' & Hv)]].
    + apply (proj1 (missing_fields_nil ud) Hnil field Hin Hblank).
    + congruence.
    + congruence.
  - intros field Hin Hblank.
    assert (Hm : In field (missing_fields ud)).
    { apply list_elem_of_In. unfold missing_fields.
      apply list_elem_of_filter. split; [exact Hblank|].
      apply list_elem_of_In. exact Hin. }
    split; [exact Hm|]. unfold generate_resume.
    destruct (missing_fields ud); [destruct Hm | reflexivity].
  - intros email Hnil He Hv. unfold generate_resume. rewrite Hnil.
    unfold mbind, client_bind, lift. rewrite (getitem_Some _ _ _ He), Hv.
    reflexivity.
  - intros email phone Hnil He Hve Hp Hvp. unfold generate_resume. rewrite Hnil.
    unfold mbind, client_bind, lift.
    rewrite (getitem_Some _ _ _ He), Hve, (getitem_Some _ _ _ Hp), Hvp.
    reflexivity.
  - intros email phone linkedin Hnil He Hve Hp Hvp _.
    destruct (generate_resume_agree net api_key project_id ud
                (<["linkedin"%string := linkedin]> ud) model_id style sent) as [_ ->].
    + intros k Hk. apply (insert_social_agree ud linkedin [] k Hk).
    + apply (generate_resume_reaches_network net api_key project_id ud model_id
               style email phone sent Hnil He Hve Hp Hvp).
Qed.

Lemma generate_resume_validation_witness :
  generate_resume (constant_network (inl (ConnectError [])) (inl (ConnectError [])))
    (lit "key") (lit "project") (<["name"%string := lit "   "]> john)
    (lit "ibm/granite-13b-instruct-v2") (lit "professional") [] =
  (inl (ResumeGeneratorError (cross ++ lit " Missing required fields: name")), []).
Proof.
  exact (proj2 (proj1 (proj2 (generate_resume_validation ucd_excerpt
                         (constant_network (inl (ConnectError [])) (inl (ConnectError [])))
                         (lit "key") (lit "project")
                         (<["name"%string := lit "   "]> john)
                         (lit "ibm/granite-13b-instruct-v2") (lit "professional") []))
                  "name"%string (or_introl eq_refl) eq_refl)).
Defined.

(** The profile of the end-to-end scenario does not get past validation:
    its phone number has seven digits, and [phone_pattern] asks for a first
    digit and seven to fifteen further characters. *)
Example generate_resume_jane :
  generate_resume (constant_network (inl (ConnectError [])) (inl (ConnectError [])))
    (lit "key") (lit "project") jane (lit "ibm/granite-13b-instruct-v2")
    (lit "professional") [] =
  (inl (ResumeGeneratorError (cross ++ lit " Invalid phone number format")), []).
Proof. vm_compute. reflexivity. Qed.

(** ** The social links *)

Lemma header_social {U : Ucd} (ud : gmap string pystr) name linkedin github :
  ud !! "name"%string = Some name -> linkedin <> [] -> github <> [] ->
  exists ops,
    header (<["linkedin"%string := linkedin]> (<["github"%string := github]> ud))
    = inr ops /\
    In (cell 0 6 ((lit "LinkedIn: " ++ clean_text_for_pdf linkedin) ++ lit " | "
                  ++ (lit "GitHub: " ++ clean_text_for_pdf github)) 0 1 "C") ops.
Proof.
  intros Hn Hl Hg. unfold header, getitem, present.
  rewrite lookup_insert_eq. rewrite !(lookup_insert_ne _ "linkedin"%string) by discriminate.
  rewrite lookup_insert_eq. rewrite !(lookup_insert_ne _ "github"%string) by discriminate.
  rewrite Hn. destruct linkedin as [|c1 l1]; [congruence|].
  destruct github as [|c2 g2]; [congruence|].
  eexists. split; [reflexivity|].
  apply in_or_app. right. apply in_or_app. left. cbn. right. left. reflexivity.
Qed.

(** C10, amended.  The pipeline never validates linkedin or github: for a
    profile whose required fields are not blank and whose email and phone
    pass their patterns, [generate_resume] behaves the same whatever the
    two links are, and it gets past validation (the token request is
    sent).  The links do not reach the prompt, which never reads them;
    they reach the header of the PDF, sanitized but unchecked. *)
Theorem generate_resume_ignores_social :
  forall (U : Ucd) (net : network) (api_key project_id : pystr)
         (ud : gmap string pystr) (model_id style email phone linkedin github : pystr)
         (sent : list call),
    missing_fields ud = [] ->
    ud !! "email"%string = Some email -> validate_email email = true ->
    ud !! "phone"%string = Some phone -> validate_phone phone = true ->
    let ud' := <["linkedin"%string := linkedin]> (<["github"%string := github]> ud) in
    generate_resume net api_key project_id ud' model_id style sent
    = generate_resume net api_key project_id ud model_id style sent /\
    (exists outcome rest,
       generate_resume net api_key project_id ud' model_id style sent
       = (outcome, sent ++ IamPost api_key :: rest)) /\
    create_resume_prompt ud' style = create_resume_prompt ud style /\
    (linkedin <> [] -> github <> [] ->
     exists ops,
       header ud' = inr ops /\
       In (cell 0 6 ((lit "LinkedIn: " ++ clean_text_for_pdf linkedin) ++ lit " | "
                     ++ (lit "GitHub: " ++ clean_text_for_pdf github)) 0 1 "C") ops).
Proof.
  intros U net api_key project_id ud model_id style email phone linkedin github sent
         Hnil He Hve Hp Hvp ud'.
  destruct (generate_resume_agree net api_key project_id ud ud' model_id style sent)
    as [Hprompt Hrun].
  { intros k Hk. apply (insert_social_agree ud linkedin github k Hk). }
  split; [exact Hrun|]. split; [|split; [exact Hprompt|]].
  - rewrite Hrun.
    apply (generate_resume_reaches_network net api_key project_id ud model_id
             style email phone sent Hnil He Hve Hp Hvp).
  - intros Hl Hg.
    destruct (missing_fields_lookup ud "name"%string Hnil) as (name & Hn & _);
      [cbn; tauto|].
    apply (header_social ud name linkedin github Hn Hl Hg).
Qed.

Lemma generate_resume_ignores_social_witness :
  exists outcome rest,
    generate_resume
      (constant_network (inl (ConnectError [])) (inl (ConnectError [])))
      (lit "key") (lit "project")
      (<["linkedin"%string := lit "not a url"]>
         (<["github"%string := lit "javascript:alert(1)"]> john))
      (lit "ibm/granite-13b-instruct-v2") (lit "professional") []
    = (outcome, [] ++ IamPost (lit "key") :: rest).
Proof.
  exact (proj1 (proj2
           (generate_resume_ignores_social ucd_excerpt
              (constant_network (inl (ConnectError [])) (inl (ConnectError [])))
              (lit "key") (lit "project") john (lit "ibm/granite-13b-instruct-v2")
              (lit "professional") (lit "john@example.com") (lit "+1 (555) 123-4567")
              (lit "not a url") (lit "javascript:alert(1)") []
              eq_refl eq_refl eq_refl eq_refl eq_refl))).
Defined.

(** C10 as stated fails in its last clause: a malformed link does not
    flow into the prompt.  The prompt of a profile is the same with and
    without the link, and the link occurs nowhere in it. *)
Lemma create_resume_prompt_never_reads_linkedin :
  validate_linkedin (lit "not a url") = false /\
  create_resume_prompt (<["linkedin"%string := lit "not a url"]> john)
    (lit "professional")
  = create_resume_prompt john (lit "professional") /\
  exists prompt,
    create_resume_prompt (<["linkedin"%string := lit "not a url"]> john)
      (lit "professional") = inr prompt /\
    str_in (lit "not a url") prompt = false.
Proof.
  split; [vm_compute; reflexivity|]. split; [vm_compute; reflexivity|].
  eexists. split; vm_compute; reflexivity.
Qed.

(** ** The renderer *)

Lemma lstrip_head s c t : lstrip s = c :: t -> isspace c = false.
Proof.
  induction s as [|a s IH]; simpl; [discriminate|].
  destruct (isspace a) eqn:E; [exact IH|]. intros [= <- _]. exact E.
Qed.

(** A stripped line does not end in white space. *)
Lemma strip_last raw l c : strip raw = l ++ [c] -> isspace c = false.
Proof.
  unfold strip, rstrip. intros H.
  apply (f_equal (@rev Z)) in H. rewrite rev_involutive, rev_app_distr in H.
  apply (lstrip_head _ _ _ H).
Qed.

Lemma strip_marker_long raw m :
  startswith (strip raw) [m; 32] = true -> (len (strip raw) >? 2) = true.
Proof.
  intros H. apply startswith_spec in H as [post H].
  destruct post as [|c post].
  - apply (strip_last raw [m] 32) in H. discriminate.
  - rewrite H. unfold len. apply Z.gtb_lt. cbn [length app]. lia.
Qed.

Lemma startswith_marker line m :
  startswith line [m; 32] = true -> startswith line [m] = true.
Proof.
  intros H. apply startswith_spec in H as [post ->].
  apply startswith_spec. exists (32 :: post). reflexivity.
Qed.

Section Renderer.
Context {U : Ucd}.
Variables (ud : gmap string pystr) (font_size : Z).

Lemma isupper_from_nonempty cased s : isupper_from cased s = true -> cased = true \/ s <> [].
Proof. destruct s; simpl; [tauto | right; discriminate]. Qed.

Lemma looks_like_header_nonempty line : looks_like_header line = true -> line <> [].
Proof.
  unfold looks_like_header, isupper. intros H. apply andb_true_iff in H as [H _].
  destruct (isupper_from_nonempty _ _ H) as [?|?]; [discriminate | assumption].
Qed.

(** With the header-skip mode off, a line that is not blank is formatted. *)
Lemma process_line_normal st raw :
  skip_header st = false -> strip raw <> [] ->
  process_line ud font_size st raw = inr (format_line font_size (strip raw) st).
Proof.
  intros Hs Hne. unfold process_line. rewrite Hs.
  destruct (strip raw); [congruence | reflexivity].
Qed.

Lemma format_line_header line st :
  looks_like_header line = true ->
  startswith line (lit "-") = false -> startswith line (lit "*") = false ->
  format_line font_size line st
  = LoopState (skip_header st) (Some line) (drawn st ++ section_header line).
Proof. intros H1 H2 H3. unfold format_line. rewrite H1, H2, H3. reflexivity. Qed.

Lemma format_line_bullet raw st :
  is_bullet (strip raw) = true ->
  looks_like_header (strip raw) && negb (startswith (strip raw) (lit "-"))
    && negb (startswith (strip raw) (lit "*")) = false ->
  format_line font_size (strip raw) st
  = draw [set_font "Arial" regular font_size; cell 8 6 (lit "* ") 0 0 "L";
          multi_cell 0 6 (clean_text_for_pdf (strip (drop 2 (strip raw)))) 0 "L";
          ln 1] st.
Proof.
  intros Hb Hh. unfold format_line. rewrite Hh, Hb.
  assert (Hlong : (len (strip raw) >? 2) = true).
  { unfold is_bullet in Hb.
    apply orb_true_iff in Hb as [Hb|Hb]; [apply orb_true_iff in Hb as [Hb|Hb]|];
      apply (strip_marker_long raw _ Hb). }
  rewrite Hlong. reflexivity.
Qed.

End Renderer.

(** C7, amended.  Once the header-skip mode is off, a line that starts
    with "- " or "* " is drawn as a bullet: the glyph "* ", then the line
    without its two-character marker.  So is a line that starts with "+ ",
    provided it does not look like a header.  A line that is upper-case
    and shorter than 50 characters and starts neither with the character
    "-" nor with "*" (nor with "+ ") is drawn as a section heading with a
    rule beneath it, and becomes the current section.  "- Built a thing"
    gives the bullet text "Built a thing"; "EXPERIENCE" gives a heading. *)
Theorem format_line_classification :
  forall (U : Ucd) (ud : gmap string pystr) (font_size : Z) (st : loop_state)
         (raw : pystr),
    skip_header st = false ->
    let line := strip raw in
    let bullet (content : pystr) :=
      draw [set_font "Arial" regular font_size; cell 8 6 (lit "* ") 0 0 "L";
            multi_cell 0 6 content 0 "L"; ln 1] st in
    let heading (title : pystr) :=
      LoopState false (Some title)
        (drawn st ++ [ln 5; set_font "Arial" "B" 13; cell 0 8 title 0 1 "L";
                      set_line_width 0.5; line_across; ln 5]) in
    (startswith line (lit "- ") = true \/ startswith line (lit "* ") = true ->
     process_line ud font_size st raw
     = inr (bullet (clean_text_for_pdf (strip (drop 2 line))))) /\
    (startswith line (lit "+ ") = true -> looks_like_header line = false ->
     process_line ud font_size st raw
     = inr (bullet (clean_text_for_pdf (strip (drop 2 line))))) /\
    (looks_like_header line = true ->
     startswith line (lit "-") = false -> startswith line (lit "*") = false ->
     startswith line (lit "+ ") = false ->
     process_line ud font_size st raw
     = inr (LoopState false (Some line)
              (drawn st ++ [ln 5; set_font "Arial" "B" 13;
                            cell 0 8 (clean_text_for_pdf line) 0 1 "L";
                            set_line_width 0.5; line_across; ln 5]))) /\
    process_line ud font_size st (lit "- Built a thing")
    = inr (bullet (lit "Built a thing")) /\
    process_line ud font_size st (lit "EXPERIENCE") = inr (heading (lit "EXPERIENCE")).
Proof.
  intros U ud font_size st raw Hs line bullet heading. subst line bullet heading.
  split; [|split; [|split; [|split]]].
  - intros Hm.
    assert (Hne : strip raw <> []).
    { intros E. rewrite E in Hm. destruct Hm; discriminate. }
    rewrite (process_line_normal ud font_size st raw Hs Hne). f_equal.
    apply format_line_bullet.
    + unfold is_bullet. destruct Hm as [-> | ->]; rewrite ?orb_true_r; reflexivity.
    + destruct Hm as [Hm|Hm]; apply startswith_marker in Hm.
      * rewrite (Hm : startswith (strip raw) (lit "-") = true).
        cbn [negb]. rewrite andb_false_r. reflexivity.
      * rewrite (Hm : startswith (strip raw) (lit "*") = true).
        cbn [negb]. apply andb_false_r.
  - intros Hm Hh.
    assert (Hne : strip raw <> []).
    { intros E. rewrite E in Hm. discriminate. }
    rewrite (process_line_normal ud font_size st raw Hs Hne). f_equal.
    apply format_line_bullet.
    + unfold is_bullet. rewrite Hm. apply orb_true_r.
    + rewrite Hh. reflexivity.
  - intros Hh H1 H2 _.
    rewrite (process_line_normal ud font_size st raw Hs
               (looks_like_header_nonempty _ Hh)).
    rewrite (format_line_header font_size _ st Hh H1 H2), Hs. reflexivity.
  - rewrite (process_line_normal ud font_size st _ Hs) by (vm_compute; discriminate).
    reflexivity.
  - rewrite (process_line_normal ud font_size st _ Hs) by (vm_compute; discriminate).
    unfold format_line. rewrite Hs. reflexivity.
Qed.

Lemma format_line_classification_witness :
  @process_line ucd_excerpt jane 11 (LoopState false None [])
    (lit "   * Led a team of 3 developers  ")
  = inr (LoopState false None
           [set_font "Arial" regular 11; cell 8 6 (lit "* ") 0 0 "L";
            multi_cell 0 6 (lit "Led a team of 3 developers") 0 "L"; ln 1]).
Proof.
  exact (proj1 (format_line_classification ucd_excerpt jane 11
                  (LoopState false None []) (lit "   * Led a team of 3 developers  ")
                  eq_refl)
           (or_intror eq_refl)).
Defined.

(** C7 as stated fails on a line in all capitals that starts with a star
    or a hyphen without being a bullet: it is upper-case, short, and
    starts with none of the two-character markers, yet it is drawn as an
    ordinary paragraph, with no heading and no rule. *)
Lemma format_line_starred_caps :
  @looks_like_header ucd_excerpt (lit "**SKILLS**") = true /\
  is_bullet (lit "**SKILLS**") = false /\
  @process_line ucd_excerpt jane 11 (LoopState false None []) (lit "**SKILLS**")
  = inr (LoopState false None
           [set_font "Arial" regular 11; multi_cell 0 6 (lit "**SKILLS**") 0 "L"; ln 1]).
Proof. split; [|split]; reflexivity. Qed.

(** The guard of the heading branch leaves "+" out, so a "+ " line in
    capitals is drawn as a heading and not as a bullet. *)
Example format_line_plus_caps :
  @process_line ucd_excerpt jane 11 (LoopState false None []) (lit "+ LED A TEAM")
  = inr (LoopState false (Some (lit "+ LED A TEAM"))
           (section_header (lit "+ LED A TEAM"))).
Proof. reflexivity. Qed.

(** ** The header-skip mode *)

Section HeaderSkip.
Context {U : Ucd}.
Variables (ud : gmap string pystr) (font_size : Z) (name phone email : pystr).
Hypothesis Hname : ud !! "name"%string = Some name.
Hypothesis Hphone : ud !! "phone"%string = Some phone.
Hypothesis Hemail : ud !! "email"%string = Some email.

Let infos : list pystr :=
  [clean_text_for_pdf (upper name); clean_text_for_pdf phone; clean_text_for_pdf email].
Let mentions (line : pystr) : bool := existsb (fun info => str_in info line) infos.
Let ends (raw : pystr) : bool :=
  negb (mentions (strip raw)) && looks_like_header (strip raw).

Lemma process_line_skip st raw :
  skip_header st = true -> strip raw <> [] ->
  process_line ud font_size st raw =
  inr (if mentions (strip raw) then st
       else if looks_like_header (strip raw)
            then format_line font_size (strip raw)
                   (LoopState false (current_section st) (drawn st))
            else st).
Proof.
  intros Hs Hne. unfold process_line. rewrite Hs.
  destruct (strip raw) as [|c line] eqn:E; [congruence|].
  rewrite (getitem_Some _ _ _ Hname), (getitem_Some _ _ _ Hphone),
    (getitem_Some _ _ _ Hemail).
  cbn [mbind result_bind]. fold infos. fold (mentions (c :: line)).
  destruct (mentions (c :: line)); [reflexivity|].
  destruct (looks_like_header (c :: line)); reflexivity.
Qed.

(** A line that does not end the mode leaves the state as it is, but for
    the spacing of a blank line. *)
Lemma process_line_skipped st raw :
  skip_header st = true -> ends raw = false ->
  process_line ud font_size st raw = inr (draw (blank_spacing [raw]) st).
Proof.
  intros Hs He. unfold blank_spacing. cbn [flat_map].
  destruct (strip raw) as [|c line] eqn:E.
  - unfold process_line. rewrite E. reflexivity.
  - assert (Hne : strip raw <> []) by (rewrite E; discriminate).
    rewrite (process_line_skip st raw Hs Hne). unfold ends in He. rewrite E in *.
    assert (Hst : draw ([] ++ []) st = st).
    { destruct st. unfold draw. cbn. rewrite app_nil_r. reflexivity. }
    rewrite Hst.
    destruct (mentions (c :: line)); [reflexivity|].
    cbn in He. rewrite He. reflexivity.
Qed.

Lemma draw_draw ops1 ops2 st : draw ops2 (draw ops1 st) = draw (ops1 ++ ops2) st.
Proof. unfold draw. cbn. rewrite app_assoc. reflexivity. Qed.

Lemma process_lines_skipped before rest st :
  skip_header st = true -> Forall (fun raw => ends raw = false) before ->
  process_lines ud font_size (before ++ rest) st
  = process_lines ud font_size rest (draw (blank_spacing before) st).
Proof.
  intros Hs Hall. revert st Hs.
  induction Hall as [|raw before Hraw _ IH]; intros st Hs.
  - destruct st. unfold draw. cbn. rewrite app_nil_r. reflexivity.
  - cbn [app process_lines]. rewrite (process_line_skipped st raw Hs Hraw).
    cbn [mbind result_bind]. rewrite IH by exact Hs. rewrite draw_draw.
    unfold blank_spacing. cbn [flat_map]. rewrite app_nil_r. reflexivity.
Qed.

Lemma process_line_ends st raw :
  skip_header st = true -> ends raw = true ->
  process_line ud font_size st raw
  = process_line ud font_size (LoopState false (current_section st) (drawn st)) raw.
Proof.
  intros Hs He. unfold ends in He. apply andb_true_iff in He as [Hm Hh].
  apply negb_true_iff in Hm.
  pose proof (looks_like_header_nonempty _ Hh) as Hne.
  rewrite (process_line_skip st raw Hs Hne), Hm, Hh.
  rewrite process_line_normal by (reflexivity || exact Hne). reflexivity.
Qed.

End HeaderSkip.

Lemma blank_spacing_only lines : Forall (fun op => op = ln 3) (blank_spacing lines).
Proof.
  unfold blank_spacing. induction lines as [|raw lines IH]; cbn [flat_map].
  - constructor.
  - apply Forall_app. split; [|exact IH].
    destruct (strip raw); repeat constructor.
Qed.

(** C2, amended.  While the header-skip mode is on, a line that contains
    the sanitized upper-cased name, the sanitized phone or the sanitized
    email is dropped: nothing is drawn and the mode stays on.  The mode
    ends at the first line that contains none of the three and is
    upper-case and shorter than 50 characters; that line and the ones
    after it are processed as with the mode off, and of the lines before
    it only the spacing of the blank ones is drawn.  When the text has no
    such line, only that spacing is drawn. *)
Theorem header_skip_mode :
  forall (U : Ucd) (ud : gmap string pystr) (font_size : Z) (name phone email : pystr),
    ud !! "name"%string = Some name ->
    ud !! "phone"%string = Some phone ->
    ud !! "email"%string = Some email ->
    let infos :=
      [clean_text_for_pdf (upper name); clean_text_for_pdf phone;
       clean_text_for_pdf email] in
    let mentions (line : pystr) := existsb (fun info => str_in info line) infos in
    let ends (raw : pystr) :=
      negb (mentions (strip raw)) && looks_like_header (strip raw) in
    (forall st raw,
       skip_header st = true -> strip raw <> [] -> mentions (strip raw) = true ->
       process_line ud font_size st raw = inr st) /\
    (forall before raw after,
       Forall (fun r => ends r = false) before -> ends raw = true ->
       process_lines ud font_size (before ++ raw :: after) (LoopState true None [])
       = process_lines ud font_size (raw :: after)
           (LoopState false None (blank_spacing before)) /\
       process_line ud font_size (LoopState false None (blank_spacing before)) raw
       = inr (format_line font_size (strip raw)
                (LoopState false None (blank_spacing before)))) /\
    (forall text,
       Forall (fun r => ends r = false) (split1 10 (clean_text_for_pdf text)) ->
       export_as_pdf text ud font_size
       = inr (blank_spacing (split1 10 (clean_text_for_pdf text)))) /\
    (forall lines, Forall (fun op => op = ln 3) (blank_spacing lines)).
Proof.
  intros U ud font_size name phone email Hn Hp He infos mentions ends.
  split; [|split; [|split]].
  - intros st raw Hs Hne Hm.
    rewrite (process_line_skip ud font_size name phone email Hn Hp He st raw Hs Hne).
    fold infos. fold (mentions (strip raw)). rewrite Hm. reflexivity.
  - intros before raw after Hall Hends.
    pose proof (proj1 (proj1 (andb_true_iff _ _) Hends)) as Hm.
    pose proof (proj2 (proj1 (andb_true_iff _ _) Hends)) as Hh.
    split.
    + rewrite (process_lines_skipped ud font_size name phone email Hn Hp He
                 before (raw :: after) (LoopState true None []) eq_refl Hall).
      cbn [process_lines].
      rewrite (process_line_ends ud font_size name phone email Hn Hp He
                 (draw (blank_spacing before) (LoopState true None [])) raw
                 eq_refl Hends).
      reflexivity.
    + apply process_line_normal; [reflexivity|].
      apply (looks_like_header_nonempty _ Hh).
  - intros text Hall. unfold export_as_pdf.
    pose proof (process_lines_skipped ud font_size name phone email Hn Hp He
                  (split1 10 (clean_text_for_pdf text)) [] (LoopState true None [])
                  eq_refl Hall) as H.
    rewrite app_nil_r in H. rewrite H. reflexivity.
  - apply blank_spacing_only.
Qed.

Lemma header_skip_mode_witness :
  @process_lines ucd_excerpt jane 11
    [lit "Jane Doe"; lit "555-0100 | jane@ex.com"; []; lit "Summary of JANE DOE";
     lit "EXPERIENCE"; lit "- Did X"]
    (LoopState true None [])
  = inr (LoopState false (Some (lit "EXPERIENCE"))
           ([ln 3] ++ section_header (lit "EXPERIENCE")
            ++ [set_font "Arial" regular 11; cell 8 6 (lit "* ") 0 0 "L";
                multi_cell 0 6 (lit "Did X") 0 "L"; ln 1])).
Proof.
  exact (proj1 (proj1 (proj2
           (header_skip_mode ucd_excerpt jane 11
              (lit "Jane Doe") (lit "555-0100") (lit "jane@ex.com")
              eq_refl eq_refl eq_refl))
           [lit "Jane Doe"; lit "555-0100 | jane@ex.com"; []; lit "Summary of JANE DOE"]
           (lit "EXPERIENCE") [lit "- Did X"]
           ltac:(repeat constructor) eq_refl)).
Defined.

(** C2 as stated fails on the line that repeats the name in capitals: it
    is the first line that is upper-case and shorter than 50 characters,
    yet the mode does not end there and the line is not processed; the
    mode ends at the next heading. *)
Lemma header_skip_keeps_name_line :
  @looks_like_header ucd_excerpt (lit "JANE DOE") = true /\
  @process_line ucd_excerpt jane 11 (LoopState true None []) (lit "JANE DOE")
  = inr (LoopState true None []) /\
  @export_as_pdf ucd_excerpt (lit "JANE DOE
EXPERIENCE
- Did X") jane 11
  = inr (section_header (lit "EXPERIENCE")
         ++ [set_font "Arial" regular 11; cell 8 6 (lit "* ") 0 0 "L";
             multi_cell 0 6 (lit "Did X") 0 "L"; ln 1]).
Proof. split; [|split]; reflexivity. Qed.
